(** * glitched-analytics-plugin: a shallow embedding of [src/main.ts]

    The plugin asks the user for report options, validates them, refreshes
    its OAuth2 credential when [shouldAuthenticate] says so, queries the
    YouTube Analytics API once and pastes the flattened report into the
    editor.  The first part of this file embeds the TypeScript functions;
    the second part states and proves their properties.

    Conventions.
    - A JavaScript string is a [string]; each [ascii] stands for one UTF-16
      code unit below 256, so that U+00A0 is the character of code 160.
    - [number] values that are timestamps are integers ([Z]); the cells of a
      report keep an abstract [number] type with its string conversion.
    - Promise chains are run to completion one after the other: the plugin
      has a single request in flight, so a chain is a state transformer on
      the [World], and its callbacks are composed with [then_] and [catch_].
    - [console.log] calls are left out; everything else the code does to
      the outside world is recorded, in order, in the world's [trace]. *)

From Stdlib Require Import ZArith List String Ascii Bool Lia.
From Stdlib Require Import DecimalString DecimalPos DecimalZ.
Import ListNotations.
Local Open Scope Z_scope.
Local Open Scope list_scope.
Local Open Scope string_scope.

(* ================================================================== *)
(** * Part I: the embedding *)
(* ================================================================== *)

(** ** JavaScript strings *)

Module JsString.

(** The line feed and the tab, written [\n] and [\t] in the source. *)
Definition LF : ascii := "010"%char.
Definition TAB : ascii := "009"%char.
Definition nl : string := String LF EmptyString.
Definition tab : string := String TAB EmptyString.

(** ECMAScript's WhiteSpace and LineTerminator code units below 256: TAB,
    LF, VT, FF, CR, SP and NBSP.  These are what [String.prototype.trim]
    strips. *)
Definition isWhiteSpace (c : ascii) : bool :=
  existsb (N.eqb (N_of_ascii c)) [9; 10; 11; 12; 13; 32; 160]%N.
#[global] Arguments isWhiteSpace : simpl never.

(** [s.trimStart()] *)
Fixpoint trimStart (s : string) : string :=
  match s with
  | EmptyString => EmptyString
  | String c s' => if isWhiteSpace c then trimStart s' else s
  end.

(** [s.trimEnd()]: a character is kept when something is kept after it, or
    when it is not white space itself. *)
Fixpoint trimEnd (s : string) : string :=
  match s with
  | EmptyString => EmptyString
  | String c s' =>
      match trimEnd s' with
      | EmptyString => if isWhiteSpace c then EmptyString else String c EmptyString
      | String d t => String c (String d t)
      end
  end.

(** [s.trim()] strips both ends. *)
Definition trim (s : string) : string := trimEnd (trimStart s).

(** [s.startsWith(p)], returning the rest of [s] after [p]. *)
Fixpoint stripPrefix (p s : string) : option string :=
  match p, s with
  | EmptyString, _ => Some s
  | String a p', String b s' => if Ascii.eqb a b then stripPrefix p' s' else None
  | String _ _, EmptyString => None
  end.

(** [s.includes(p)] for a non-empty [p]. *)
Fixpoint includes (p s : string) : bool :=
  match stripPrefix p s with
  | Some _ => true
  | None => match s with
            | EmptyString => false
            | String _ s' => includes p s'
            end
  end.

(** Cut [s] at the first occurrence of [sep]: what is before it and what is
    after it ([s.indexOf(sep)] with two [substring]s). *)
Fixpoint cutAt (sep s : string) : option (string * string) :=
  match stripPrefix sep s with
  | Some rest => Some (EmptyString, rest)
  | None =>
      match s with
      | EmptyString => None
      | String c s' =>
          match cutAt sep s' with
          | Some (before, after) => Some (String c before, after)
          | None => None
          end
      end
  end.

(** [s.split("\n")]: never empty, the empty string gives one empty line. *)
Fixpoint splitLines (s : string) : list string :=
  match s with
  | EmptyString => [EmptyString]
  | String c s' =>
      if Ascii.eqb c LF then EmptyString :: splitLines s'
      else match splitLines s' with
           | l :: ls => String c l :: ls
           | [] => [String c EmptyString]
           end
  end.

(** [parts.join(sep)] *)
Fixpoint join (sep : string) (parts : list string) : string :=
  match parts with
  | [] => EmptyString
  | [p] => p
  | p :: ps => p ++ sep ++ join sep ps
  end.

(** Every character of [s] satisfies [f]. *)
Fixpoint forallChars (f : ascii -> bool) (s : string) : bool :=
  match s with
  | EmptyString => true
  | String c s' => f c && forallChars f s'
  end.

(** [s] does not start with white space. *)
Definition noLeadingSpace (s : string) : bool :=
  match s with
  | EmptyString => true
  | String c _ => negb (isWhiteSpace c)
  end.

End JsString.
Import JsString.

(** ** Errors and promises *)

(** What a callback can throw and a promise can be rejected with.  A
    [TypeError] is raised by the language itself; a [Failure] is whatever an
    external collaborator rejected with, kept as its string conversion. *)
Inductive JsError : Type :=
| TypeError (message : string)
| Failure (detail : string).

(** [String(error)], as used by ["Retrieval failed: " + error]. *)
Definition String_of_error (e : JsError) : string :=
  match e with
  | TypeError m => "TypeError: " ++ m
  | Failure d => d
  end.

(** A synchronous computation: a value, or a thrown error. *)
Inductive Result (A : Type) : Type :=
| Ok (a : A)
| Throw (e : JsError).
Arguments Ok {A} a.
Arguments Throw {A} e.

(** A settled promise. *)
Inductive Outcome (A : Type) : Type :=
| Fulfilled (a : A)
| Rejected (reason : JsError).
Arguments Fulfilled {A} a.
Arguments Rejected {A} reason.

(** ** The data of [main.ts] *)

Record GlitchedVideoPluginSettings : Type := {
  mySetting : string;
  oauth2KeysLocation : string
}.

Definition DEFAULT_SETTINGS : GlitchedVideoPluginSettings :=
  {| mySetting := "default"; oauth2KeysLocation := EmptyString |}.

Record AnalyticsReportColumn : Type := {
  name : string;
  columnType : string;
  dataType : string
}.

Record AnalyticsReport (number : Type) : Type := {
  columnHeaders : list AnalyticsReportColumn;
  rows : list (list number)
}.
Arguments columnHeaders {number} _.
Arguments rows {number} _.

Record OptionsValidationResult : Type := {
  valid : bool;
  violations : option string
}.

Record VideoReportOptions : Type := {
  endDate : string;
  startDate : string;
  metrics : string;
  videoId : string
}.

(** [Credentials] of google-auth-library: [expiry_date?: number | null], in
    milliseconds since the epoch; [None] is [null] or [undefined]. *)
Record Credentials : Type := {
  access_token : option string;
  expiry_date : option Z
}.

Record OAuth2Client : Type := {
  credentials : Credentials
}.

(** ** The credential freshness check *)

(** [date.getUTCMilliseconds()] of the date whose time value is [t]:
    ECMAScript's msFromTime, [t modulo 1000]. *)
Definition getUTCMilliseconds (t : Z) : Z := t mod 1000.

(** [shouldAuthenticate], with the plugin's [oauth2Client] field ([None]
    when it was never assigned, which [== null] accepts) and the time value
    [now] of [new Date()]. *)
Definition shouldAuthenticate (oauth2Client : option OAuth2Client) (now : Z) : bool :=
  match oauth2Client with
  | None => true
  | Some client =>
      let cachedCreds := credentials client in
      match expiry_date cachedCreds with
      | None => true
      | Some expiry =>
          if (expiry =? 0)%Z then true
          else
            let timeNowMs := getUTCMilliseconds now in
            (timeNowMs >? expiry)%Z
      end
  end.

(** ** The report formatter *)

Section Formatter.

(** The type of the cells, JavaScript's [number], and its conversion to a
    string inside a template literal (Number::toString). *)
Context {number : Type}.
Variable Number_toString : number -> string.

(** The text one cell adds: [`${columnName}:: ${dataValue}\n`]. *)
Definition cellLine (columnName : string) (dataValue : number) : string :=
  columnName ++ ":: " ++ Number_toString dataValue ++ nl.

(** The inner loop of [formatReport] from index [j] on, [cells] being
    [row[j..]].  [data.columnHeaders[j]] is [undefined] past the end of the
    array, and reading [.name] of [undefined] throws a [TypeError]. *)
Fixpoint formatCells (headers : list AnalyticsReportColumn) (j : nat)
    (cells : list number) (frontMattered : string) : Result string :=
  match cells with
  | [] => Ok frontMattered
  | dataValue :: cells' =>
      match nth_error headers j with
      | None => Throw (TypeError "Cannot read properties of undefined (reading 'name')")
      | Some column =>
          let columnName := name column in
          formatCells headers (S j) cells' (frontMattered ++ cellLine columnName dataValue)
      end
  end.

(** The outer loop, over [data.rows]. *)
Fixpoint formatRows (headers : list AnalyticsReportColumn)
    (remaining : list (list number)) (frontMattered : string) : Result string :=
  match remaining with
  | [] => Ok frontMattered
  | row :: remaining' =>
      match formatCells headers 0 row frontMattered with
      | Ok frontMattered' => formatRows headers remaining' frontMattered'
      | Throw e => Throw e
      end
  end.

Definition formatReport (data : AnalyticsReport number) : Result string :=
  match formatRows (columnHeaders data) (rows data) EmptyString with
  | Ok frontMattered => Ok (trim frontMattered)
  | Throw e => Throw e
  end.

End Formatter.

(** ** The options validator *)

Section Validator.

(** [moment(s, "YYYY-MM-DD").isValid()], from the moment library. *)
Variable moment_isValid : string -> bool.

(** A string is truthy when it is not empty. *)
Definition truthy (s : string) : bool := negb (s =? EmptyString).

Definition validateOptions (options : VideoReportOptions) : OptionsValidationResult :=
  let violations := EmptyString in
  let valid := true in
  let '(violations, valid) :=
    if negb (moment_isValid (startDate options))
    then ((violations ++ nl) ++ String TAB "startDate: not set correctly.", false)
    else (violations, valid) in
  let '(violations, valid) :=
    if negb (moment_isValid (endDate options))
    then ((violations ++ nl) ++ String TAB "endDate: not set correctly.", false)
    else (violations, valid) in
  let '(violations, valid) :=
    if negb (truthy (metrics options))
    then ((violations ++ nl) ++ String TAB "metrics: not set correctly.", false)
    else (violations, valid) in
  let '(violations, valid) :=
    if negb (truthy (videoId options))
    then ((violations ++ nl) ++ String TAB "videoId: not set correctly.", false)
    else (violations, valid) in
  if valid
  then {| valid := valid; violations := None |}
  else {| valid := valid; violations := Some (trim violations) |}.

End Validator.

(** ** The plugin, its collaborators and the world they act on *)

(** The argument of [authenticate] from [@google-cloud/local-auth]. *)
Record LocalAuthOptions : Type := {
  scopes : list string;
  keyfilePath : string
}.

(** The argument of [youtubeAnalytics("v2").reports.query]. *)
Module Reports.
Record Query : Type := {
  endDate : string;
  startDate : string;
  metrics : string;
  ids : string;
  filters : string
}.
End Reports.

(** An editor of the workspace, named by its view. *)
Inductive Editor : Type := EditorOf (view : nat).

Inductive Modal : Type :=
| OAuth2MisconfiguredErrorModal
| ErrorModal (errorMessage : string).

(** What the plugin does to its collaborators. *)
Inductive Effect : Type :=
| Authenticate (options : LocalAuthOptions)
| GoogleOptions (auth : OAuth2Client)
| ReportsQuery (params : Reports.Query)
| ReplaceRange (editor : Editor) (replacement : string)
| ModalOpen (modal : Modal)
| UnhandledRejection (reason : JsError).

(** The fields of [GlitchedVideoPlugin]. *)
Record Plugin : Type := {
  settings : GlitchedVideoPluginSettings;
  oauth2Client : option OAuth2Client;
  previousReportOptions : VideoReportOptions
}.

(** The plugin, the [auth] option of the [google] object, the time value of
    the system clock, and the effects so far, oldest first. *)
Record World : Type := {
  plugin : Plugin;
  googleAuth : option OAuth2Client;
  clock : Z;
  trace : list Effect
}.

Definition emit (e : Effect) (w : World) : World :=
  {| plugin := plugin w; googleAuth := googleAuth w; clock := clock w;
     trace := (trace w ++ [e])%list |}.

Definition set_oauth2Client (client : OAuth2Client) (w : World) : World :=
  {| plugin := {| settings := settings (plugin w);
                  oauth2Client := Some client;
                  previousReportOptions := previousReportOptions (plugin w) |};
     googleAuth := googleAuth w; clock := clock w; trace := trace w |}.

Definition set_previousReportOptions (options : VideoReportOptions) (w : World) : World :=
  {| plugin := {| settings := settings (plugin w);
                  oauth2Client := oauth2Client (plugin w);
                  previousReportOptions := options |};
     googleAuth := googleAuth w; clock := clock w; trace := trace w |}.

(** [google.options({ auth: client })] *)
Definition google_options (client : OAuth2Client) (w : World) : World :=
  emit (GoogleOptions client)
    {| plugin := plugin w; googleAuth := Some client; clock := clock w;
       trace := trace w |}.

(** A promise chain run to completion: the world it leaves and how the
    promise settled. *)
Definition Async (A : Type) : Type := World -> Outcome A * World.

(** [p.then(f)]: [f] runs when [p] is fulfilled, a rejection passes through. *)
Definition then_ {A B : Type} (p : Async A) (f : A -> Async B) : Async B :=
  fun w =>
    match p w with
    | (Fulfilled a, w') => f a w'
    | (Rejected e, w') => (Rejected e, w')
    end.

(** [p.catch(h)]: [h] runs when [p] is rejected. *)
Definition catch_ {A : Type} (p : Async A) (h : JsError -> Async A) : Async A :=
  fun w =>
    match p w with
    | (Fulfilled a, w') => (Fulfilled a, w')
    | (Rejected e, w') => h e w'
    end.

(** A chain nobody awaits: a rejection that reaches its end is unhandled. *)
Definition detach {A : Type} (p : Async A) : World -> World :=
  fun w =>
    match p w with
    | (Fulfilled _, w') => w'
    | (Rejected e, w') => emit (UnhandledRejection e) w'
    end.

Section Orchestrator.

Context {number : Type}.
Variable Number_toString : number -> string.
Variable moment_isValid : string -> bool.

(** The external collaborators: how [authenticate] settles for given
    options, and how [reports.query] settles for the [auth] option in force
    and given parameters. *)
Variable authenticate : LocalAuthOptions -> Outcome OAuth2Client.
Variable reports_query : option OAuth2Client -> Reports.Query -> Outcome (AnalyticsReport number).

Definition call_authenticate (options : LocalAuthOptions) : Async OAuth2Client :=
  fun w => (authenticate options, emit (Authenticate options) w).

Definition call_reports_query (params : Reports.Query) : Async (AnalyticsReport number) :=
  fun w => (reports_query (googleAuth w) params, emit (ReportsQuery params) w).

(** [editor.replaceRange(this.formatReport(metricsData), editor.getCursor())]:
    the argument is evaluated first, so nothing is replaced when it throws. *)
Definition fetchReportDetails (editor : Editor) (options : VideoReportOptions) : World -> World :=
  detach
    (catch_
       (then_
          (call_reports_query
             {| Reports.endDate := endDate options;
                Reports.startDate := startDate options;
                Reports.metrics := metrics options;
                Reports.ids := "channel==MINE";
                Reports.filters := "video==" ++ videoId options |})
          (fun metricsData w =>
             match formatReport Number_toString metricsData with
             | Ok text => (Fulfilled tt, emit (ReplaceRange editor text) w)
             | Throw e => (Rejected e, w)
             end))
       (fun error w =>
          (Fulfilled tt,
           emit (ModalOpen (ErrorModal ("Retrieval failed: " ++ String_of_error error))) w))).

Definition runVideoReport (editor : Editor) (options : VideoReportOptions) : World -> World :=
  fun w =>
    if shouldAuthenticate (oauth2Client (plugin w)) (clock w) then
      detach
        (then_
           (then_
              (call_authenticate
                 {| scopes := ["https://www.googleapis.com/auth/yt-analytics.readonly";
                               "https://www.googleapis.com/auth/yt-analytics-monetary.readonly"];
                    keyfilePath := oauth2KeysLocation (settings (plugin w)) |})
              (fun client w1 => (Fulfilled client, set_oauth2Client client w1)))
           (fun client w2 =>
              (Fulfilled tt, fetchReportDetails editor options (google_options client w2))))
        w
    else fetchReportDetails editor options w.

(** The callback given to [VideoReportOptionsModal] in [onload]; [editor]
    is [view.editor] of the active view. *)
Definition onSubmit (editor : Editor) (result : VideoReportOptions) : World -> World :=
  fun w =>
    let validate := validateOptions moment_isValid result in
    let w := set_previousReportOptions result w in
    if negb (valid validate) then
      emit (ModalOpen (ErrorModal ("Options set incorrectly:" ++ nl ++
              match violations validate with
              | Some text => text
              | None => "undefined"
              end))) w
    else runVideoReport editor (previousReportOptions (plugin w)) w.

(** [existsSync] and [path.normalize] of Node. *)
Variable existsSync : string -> bool.
Variable path_normalize : string -> string.

(** What the user does with the options form: the field values when the
    form is left, from the values it was opened with, and whether it is
    left by the submit button. *)
Record FormSession : Type := {
  edit : VideoReportOptions -> VideoReportOptions;
  submitted : bool
}.

(** The click handler of the ribbon icon.  [activeView] is the editor of the
    active Markdown view, if there is one.  The modal keeps the plugin's own
    [previousReportOptions] object as its [result] and its fields are
    assigned in place, so the edits reach the plugin even without a
    submission. *)
Definition onRibbonClick (activeView : option Editor) (form : FormSession) : World -> World :=
  fun w =>
    match activeView with
    | None => w
    | Some editor =>
        let oauthKeyLocation := oauth2KeysLocation (settings (plugin w)) in
        if negb (truthy oauthKeyLocation) then
          emit (ModalOpen OAuth2MisconfiguredErrorModal) w
        else if negb (existsSync (path_normalize oauthKeyLocation)) then
          emit (ModalOpen (ErrorModal
                  ("Invalid Location: " ++ String "034"%char oauthKeyLocation))) w
        else
          let previousOptions := previousReportOptions (plugin w) in
          let result := edit form previousOptions in
          let w := set_previousReportOptions result w in
          if submitted form then onSubmit editor result w else w
    end.

End Orchestrator.

(** ** Cells that are integers *)

(** Number::toString on an integral number below 1e21 in magnitude gives its
    decimal digits, with a minus sign when negative; [Number(text)] reads
    them back. *)
Definition Integer_toString (z : Z) : string :=
  NilZero.string_of_int (Z.to_int z).

Definition Integer_ofString (s : string) : option Z :=
  option_map Z.of_int (NilZero.int_of_string s).

(** ** The options form *)

(** A value typed into one of the four text fields of
    [VideoReportOptionsModal]: the argument of the field's [onChange]. *)
Inductive FieldChange : Type :=
| StartDateChange (value : string)
| EndDateChange (value : string)
| MetricsChange (value : string)
| VideoIdChange (value : string).

(** The [onChange] callbacks: each assigns one field of [this.result]. *)
Definition onChange (change : FieldChange) (result : VideoReportOptions) : VideoReportOptions :=
  match change with
  | StartDateChange value =>
      {| endDate := endDate result; startDate := value;
         metrics := metrics result; videoId := videoId result |}
  | EndDateChange value =>
      {| endDate := value; startDate := startDate result;
         metrics := metrics result; videoId := videoId result |}
  | MetricsChange value =>
      {| endDate := endDate result; startDate := startDate result;
         metrics := value; videoId := videoId result |}
  | VideoIdChange value =>
      {| endDate := endDate result; startDate := startDate result;
         metrics := metrics result; videoId := value |}
  end.

(** The changes of a session, in the order they are typed. *)
Definition typeInto (changes : list FieldChange) (result : VideoReportOptions) : VideoReportOptions :=
  fold_left (fun r change => onChange change r) changes result.

(** A session of the form: what is typed, and whether the submit button
    ends it. *)
Definition formSession (changes : list FieldChange) (submits : bool) : FormSession :=
  {| edit := typeInto changes; submitted := submits |}.

(** ** Settings: loading, saving, and the settings tab *)

(** What [loadData()] resolves to when the plugin has a data file: a JSON
    object in which either key of the settings can be missing.  Other keys
    are not read by the plugin and are left out. *)
Record PersistedSettings : Type := {
  persisted_mySetting : option string;
  persisted_oauth2KeysLocation : option string
}.

(** The plugin and its data file ([None]: no data, [loadData()] gives
    [null]). *)
Record Host : Type := {
  hostPlugin : Plugin;
  dataFile : option PersistedSettings
}.

(** [Object.assign({}, DEFAULT_SETTINGS, data)]: the keys [data] has
    replace the defaults; a [null] source is skipped. *)
Definition Object_assign_settings (defaults : GlitchedVideoPluginSettings)
    (data : option PersistedSettings) : GlitchedVideoPluginSettings :=
  match data with
  | None => defaults
  | Some object =>
      {| mySetting :=
           match persisted_mySetting object with
           | Some value => value
           | None => mySetting defaults
           end;
         oauth2KeysLocation :=
           match persisted_oauth2KeysLocation object with
           | Some value => value
           | None => oauth2KeysLocation defaults
           end |}
  end.

Definition set_settings (s : GlitchedVideoPluginSettings) (p : Plugin) : Plugin :=
  {| settings := s; oauth2Client := oauth2Client p;
     previousReportOptions := previousReportOptions p |}.

(** [loadSettings] *)
Definition loadSettings (h : Host) : Host :=
  {| hostPlugin := set_settings (Object_assign_settings DEFAULT_SETTINGS (dataFile h))
                     (hostPlugin h);
     dataFile := dataFile h |}.

(** [saveSettings]: [saveData(this.settings)] writes the whole record. *)
Definition saveSettings (h : Host) : Host :=
  {| hostPlugin := hostPlugin h;
     dataFile :=
       Some {| persisted_mySetting := Some (mySetting (settings (hostPlugin h)));
               persisted_oauth2KeysLocation :=
                 Some (oauth2KeysLocation (settings (hostPlugin h))) |} |}.

Section SettingsTab.

Variable path_normalize : string -> string.

(** The [onChange] callback of the text area of the settings tab. *)
Definition onKeysLocationChange (value : string) (h : Host) : Host :=
  if (0 <? String.length value)%nat then
    saveSettings
      {| hostPlugin :=
           set_settings
             {| mySetting := mySetting (settings (hostPlugin h));
                oauth2KeysLocation := path_normalize value |}
             (hostPlugin h);
         dataFile := dataFile h |}
  else h.

End SettingsTab.

(* ================================================================== *)
(** * Part II: properties *)
(* ================================================================== *)

(** ** The credential freshness check *)

(** When the check asks for a new authorization, exactly. *)
Lemma shouldAuthenticate_true_iff (oauth2Client : option OAuth2Client) (now : Z) :
  shouldAuthenticate oauth2Client now = true <->
  oauth2Client = None \/
  exists client, oauth2Client = Some client /\
    (expiry_date (credentials client) = None \/
     expiry_date (credentials client) = Some 0 \/
     exists expiry, expiry_date (credentials client) = Some expiry /\
                    now mod 1000 > expiry).
Proof.
  unfold shouldAuthenticate, getUTCMilliseconds.
  destruct oauth2Client as [client|]; [|split; auto].
  destruct (expiry_date (credentials client)) as [expiry|] eqn:E.
  - destruct (Z.eqb_spec expiry 0) as [->|Hne].
    + split; [intros _|reflexivity]. right. exists client. auto.
    + rewrite Z.gtb_ltb, Z.ltb_lt. split.
      * intros H. right. exists client. split; [reflexivity|].
        right. right. exists expiry. split; [exact E|lia].
      * intros [H|(c & Hc & H)]; [discriminate|].
        injection Hc as <-. rewrite E in H.
        destruct H as [H|[H|(e & He & Hlt)]]; try congruence.
        injection He as <-. lia.
  - split; [intros _|reflexivity]. right. exists client. auto.
Qed.

(** The milliseconds of a date are below 1000, whatever the date. *)
Lemma getUTCMilliseconds_range (t : Z) : 0 <= getUTCMilliseconds t < 1000.
Proof. unfold getUTCMilliseconds. apply Z.mod_pos_bound. lia. Qed.

(** C1 (the code departs from it): a cached credential whose expiry is any
    timestamp from 999 on is never refreshed, whatever the current time, so
    the check answers false for a credential that expired long ago.  The
    code compares the milliseconds field of the current date, not the
    current time, with the expiry. *)
Theorem shouldAuthenticate_keeps_expired_credential
    (client : OAuth2Client) (now expiry : Z) :
  expiry_date (credentials client) = Some expiry ->
  999 <= expiry ->
  shouldAuthenticate (Some client) now = false.
Proof.
  intros E Hge. unfold shouldAuthenticate. rewrite E.
  destruct (Z.eqb_spec expiry 0); [lia|].
  pose proof (getUTCMilliseconds_range now).
  cbv zeta. rewrite Z.gtb_ltb. apply Z.ltb_ge. lia.
Qed.

(** A credential that expired on 2023-11-14 is still accepted in 2027. *)
Lemma shouldAuthenticate_keeps_expired_credential_witness :
  1800000000000 > 1700000000000 /\
  shouldAuthenticate
    (Some {| credentials := {| access_token := Some "ya29.token";
                               expiry_date := Some 1700000000000 |} |})
    1800000000000 = false.
Proof.
  split; [lia|].
  apply (shouldAuthenticate_keeps_expired_credential _ _ 1700000000000);
    [reflexivity|lia].
Defined.

(** C10: an expiry of 0, like an absent one, always asks for a new
    authorization; it is not compared with the clock (the comparison would
    answer false whenever the milliseconds of the clock are 0). *)
Theorem shouldAuthenticate_falsy_expiry (client : OAuth2Client) (now : Z) :
  expiry_date (credentials client) = Some 0 \/
  expiry_date (credentials client) = None ->
  shouldAuthenticate (Some client) now = true.
Proof.
  intros [E|E]; unfold shouldAuthenticate; rewrite E; reflexivity.
Qed.

Lemma shouldAuthenticate_falsy_expiry_witness :
  (getUTCMilliseconds 1700000000000 >? 0)%Z = false /\
  shouldAuthenticate
    (Some {| credentials := {| access_token := None; expiry_date := Some 0 |} |})
    1700000000000 = true.
Proof.
  split; [reflexivity|].
  apply shouldAuthenticate_falsy_expiry. left. reflexivity.
Defined.

(** ** The options validator *)

Section ValidatorProperties.

Variable moment_isValid : string -> bool.

(** The four checks as the specification lists them, by the name of the
    field each one is about, in the order they are made: the fields whose
    check fails. *)
Definition failedChecks (options : VideoReportOptions) : list string :=
  ((if moment_isValid (startDate options) then [] else ["startDate"]) ++
   (if moment_isValid (endDate options) then [] else ["endDate"]) ++
   (if metrics options =? EmptyString then ["metrics"] else []) ++
   (if videoId options =? EmptyString then ["videoId"] else []))%list.

(** The line of the violation message for one field. *)
Definition violationLine (field : string) : string :=
  field ++ ": not set correctly.".

(** Strings put end to end. *)
Definition concatStrings (parts : list string) : string :=
  fold_right append EmptyString parts.

(** Whether a violation message has the line of [field]. *)
Definition namesField (field : string) (result : OptionsValidationResult) : bool :=
  match violations result with
  | Some text => includes (violationLine field) text
  | None => false
  end.

Ltac validator_cases options :=
  unfold validateOptions, failedChecks, namesField, truthy;
  destruct (moment_isValid (startDate options)),
           (moment_isValid (endDate options)),
           (metrics options) as [|? ?],
           (videoId options) as [|? ?];
  cbn [String.eqb negb fst snd app valid violations].

Lemma failedChecks_nil_iff (options : VideoReportOptions) :
  failedChecks options = [] <->
  moment_isValid (startDate options) = true /\
  moment_isValid (endDate options) = true /\
  metrics options <> EmptyString /\
  videoId options <> EmptyString.
Proof.
  validator_cases options;
    (split; [intros H; try discriminate H; repeat split; congruence
            |intros (H1 & H2 & H3 & H4); congruence]).
Qed.

(** C3: the result is valid, without violation text, exactly when the four
    checks pass; otherwise it is invalid and its text is the trimmed
    concatenation of one line per failed check, a line break and a tab
    before each, so every failing field has its line, which names it and
    says "not set correctly". *)
Theorem validateOptions_reports_every_failed_check (options : VideoReportOptions) :
  ((valid (validateOptions moment_isValid options) = true /\
    violations (validateOptions moment_isValid options) = None) <->
   (moment_isValid (startDate options) = true /\
    moment_isValid (endDate options) = true /\
    metrics options <> EmptyString /\
    videoId options <> EmptyString)) /\
  validateOptions moment_isValid options =
    match failedChecks options with
    | [] => {| valid := true; violations := None |}
    | failed =>
        {| valid := false;
           violations :=
             Some (trim (concatStrings
                           (map (fun field => nl ++ tab ++ violationLine field) failed))) |}
    end /\
  (forall text, violations (validateOptions moment_isValid options) = Some text ->
     text = join (nl ++ tab) (map violationLine (failedChecks options))) /\
  (forall field, In field (failedChecks options) ->
     namesField field (validateOptions moment_isValid options) = true).
Proof.
  split; [|split; [|split]].
  - rewrite <- failedChecks_nil_iff.
    validator_cases options;
      (split; [intros [H1 H2]; try discriminate H1; reflexivity
              |intros H; try discriminate H; split; reflexivity]).
  - validator_cases options; reflexivity.
  - intros text.
    validator_cases options; intros H; try discriminate H;
      injection H as <-; reflexivity.
  - intros field.
    validator_cases options; cbn [In]; intros H;
      repeat (destruct H as [<-|H]; [reflexivity|]); destruct H.
Qed.

(** A metrics field that is not empty passes its check, blank or not: the
    message, if there is one, has no line for it. *)
Lemma validateOptions_nonempty_metrics (options : VideoReportOptions) :
  metrics options <> EmptyString ->
  namesField "metrics" (validateOptions moment_isValid options) = false.
Proof.
  validator_cases options; intros H; try reflexivity; congruence.
Qed.

(** An invalid result always carries a message. *)
Lemma validateOptions_invalid_text (options : VideoReportOptions) :
  valid (validateOptions moment_isValid options) = false ->
  exists text, violations (validateOptions moment_isValid options) = Some text.
Proof.
  validator_cases options; intros H; try discriminate H; eexists; reflexivity.
Qed.

(** C8 (amended): when the metrics field is the empty string, the only
    falsy string, the result is invalid and its message has the line of the
    metrics field; when it is not empty, blank or not, the metrics check
    passes and no message has that line. *)
Theorem validateOptions_empty_metrics (options : VideoReportOptions) :
  (metrics options = EmptyString ->
   valid (validateOptions moment_isValid options) = false /\
   namesField "metrics" (validateOptions moment_isValid options) = true) /\
  (metrics options <> EmptyString ->
   namesField "metrics" (validateOptions moment_isValid options) = false).
Proof.
  split; [|apply validateOptions_nonempty_metrics].
  validator_cases options; intros H; try discriminate H; split; reflexivity.
Qed.

End ValidatorProperties.

(** Options whose metrics field holds two spaces and nothing else. *)
Definition blankMetricsOptions : VideoReportOptions :=
  {| endDate := "2024-01-31"; startDate := "2024-01-01";
     metrics := "  "; videoId := "dQw4w9WgXcQ" |}.

(** C8 as stated fails: a metrics field of two spaces is blank, yet no
    message ever names the metrics field for it, and with two valid dates
    the options are accepted. *)
Lemma validateOptions_blank_metrics_accepted :
  forallChars isWhiteSpace (metrics blankMetricsOptions) = true /\
  (forall moment_isValid,
     namesField "metrics" (validateOptions moment_isValid blankMetricsOptions) = false) /\
  (forall moment_isValid,
     moment_isValid "2024-01-01" = true ->
     moment_isValid "2024-01-31" = true ->
     validateOptions moment_isValid blankMetricsOptions =
       {| valid := true; violations := None |}).
Proof.
  split; [reflexivity|split].
  - intros isValid. apply validateOptions_nonempty_metrics. discriminate.
  - intros isValid H1 H2. unfold validateOptions, blankMetricsOptions.
    cbn [startDate endDate metrics videoId]. rewrite H1, H2. reflexivity.
Qed.

Lemma validateOptions_empty_metrics_witness :
  valid (validateOptions (fun _ => true)
           {| endDate := "2024-01-31"; startDate := "2024-01-01";
              metrics := EmptyString; videoId := "dQw4w9WgXcQ" |}) = false /\
  namesField "metrics"
    (validateOptions (fun _ => true)
       {| endDate := "2024-01-31"; startDate := "2024-01-01";
          metrics := EmptyString; videoId := "dQw4w9WgXcQ" |}) = true.
Proof.
  apply (proj1 (validateOptions_empty_metrics (fun _ => true)
                  {| endDate := "2024-01-31"; startDate := "2024-01-01";
                     metrics := EmptyString; videoId := "dQw4w9WgXcQ" |})).
  reflexivity.
Defined.

(** ** The report orchestrator and the entry point *)

(** The parameters [fetchReportDetails] sends for given options. *)
Definition reportQuery (options : VideoReportOptions) : Reports.Query :=
  {| Reports.endDate := endDate options;
     Reports.startDate := startDate options;
     Reports.metrics := metrics options;
     Reports.ids := "channel==MINE";
     Reports.filters := "video==" ++ videoId options |}.

(** The options [runVideoReport] gives to [authenticate] in a world. *)
Definition authOptions (w : World) : LocalAuthOptions :=
  {| scopes := ["https://www.googleapis.com/auth/yt-analytics.readonly";
                "https://www.googleapis.com/auth/yt-analytics-monetary.readonly"];
     keyfilePath := oauth2KeysLocation (settings (plugin w)) |}.

(** The error dialog of a failed retrieval. *)
Definition retrievalFailed (e : JsError) : Effect :=
  ModalOpen (ErrorModal ("Retrieval failed: " ++ String_of_error e)).

Section OrchestratorProperties.

Context {number : Type}.
Variable Number_toString : number -> string.
Variable moment_isValid : string -> bool.
Variable authenticate : LocalAuthOptions -> Outcome OAuth2Client.
Variable reports_query : option OAuth2Client -> Reports.Query -> Outcome (AnalyticsReport number).
Variable existsSync : string -> bool.
Variable path_normalize : string -> string.

Local Abbreviation fetch := (fetchReportDetails Number_toString reports_query).
Local Abbreviation run := (runVideoReport Number_toString authenticate reports_query).
Local Abbreviation submit := (onSubmit Number_toString moment_isValid authenticate reports_query).

(** [fetchReportDetails] by cases on how the query settles and on whether
    the formatter throws. *)
Lemma fetchReportDetails_cases (editor : Editor) (options : VideoReportOptions) (w : World) :
  fetch editor options w =
    match reports_query (googleAuth w) (reportQuery options) with
    | Fulfilled metricsData =>
        match formatReport Number_toString metricsData with
        | Ok text => emit (ReplaceRange editor text) (emit (ReportsQuery (reportQuery options)) w)
        | Throw e => emit (retrievalFailed e) (emit (ReportsQuery (reportQuery options)) w)
        end
    | Rejected e => emit (retrievalFailed e) (emit (ReportsQuery (reportQuery options)) w)
    end.
Proof.
  unfold fetchReportDetails, detach, catch_, then_, call_reports_query, reportQuery.
  destruct (reports_query _ _) as [metricsData|e]; [|reflexivity].
  destruct (formatReport _ _); reflexivity.
Qed.

(** [runVideoReport] by cases on the freshness check and on how the
    authorization settles. *)
Lemma runVideoReport_cases (editor : Editor) (options : VideoReportOptions) (w : World) :
  run editor options w =
    if shouldAuthenticate (oauth2Client (plugin w)) (clock w) then
      match authenticate (authOptions w) with
      | Fulfilled client =>
          fetch editor options
            (google_options client (set_oauth2Client client (emit (Authenticate (authOptions w)) w)))
      | Rejected e => emit (UnhandledRejection e) (emit (Authenticate (authOptions w)) w)
      end
    else fetch editor options w.
Proof.
  unfold runVideoReport, detach, then_, call_authenticate, authOptions.
  destruct (shouldAuthenticate _ _); [|reflexivity].
  destruct (authenticate _); reflexivity.
Qed.

(** The query never touches the fields of the plugin. *)
Lemma fetchReportDetails_plugin (editor : Editor) (options : VideoReportOptions) (w : World) :
  plugin (fetch editor options w) = plugin w.
Proof.
  rewrite fetchReportDetails_cases.
  destruct (reports_query _ _) as [metricsData|e]; [|reflexivity].
  destruct (formatReport _ _); reflexivity.
Qed.

(** Running a report leaves the cached options as they are. *)
Lemma runVideoReport_previousReportOptions
    (editor : Editor) (options : VideoReportOptions) (w : World) :
  previousReportOptions (plugin (run editor options w)) =
  previousReportOptions (plugin w).
Proof.
  rewrite runVideoReport_cases.
  destruct (shouldAuthenticate _ _).
  - destruct (authenticate _) as [client|e]; [|reflexivity].
    rewrite fetchReportDetails_plugin. reflexivity.
  - rewrite fetchReportDetails_plugin. reflexivity.
Qed.

(** C2 (the code departs from it): when a new authorization is needed and
    the authorization collaborator fails, the code calls it once, stores no
    credential and stops, but opens no dialog: the rejection reaches the end
    of the chain unhandled, and the user is told nothing. *)
Theorem runVideoReport_authorization_failure_unreported
    (editor : Editor) (options : VideoReportOptions) (w : World) (e : JsError) :
  shouldAuthenticate (oauth2Client (plugin w)) (clock w) = true ->
  authenticate (authOptions w) = Rejected e ->
  trace (run editor options w) =
    (trace w ++ [Authenticate (authOptions w); UnhandledRejection e])%list /\
  plugin (run editor options w) = plugin w /\
  googleAuth (run editor options w) = googleAuth w.
Proof.
  intros Hneed Hrej. rewrite runVideoReport_cases, Hneed, Hrej.
  cbn [emit trace plugin googleAuth]. rewrite <- app_assoc. auto.
Qed.

(** A text reaches the editor only when the query was fulfilled and the
    formatter returned that text. *)
Lemma fetchReportDetails_inserts_formatted
    (editor : Editor) (options : VideoReportOptions) (w : World)
    (target : Editor) (text : string) :
  In (ReplaceRange target text) (trace (fetch editor options w)) ->
  In (ReplaceRange target text) (trace w) \/
  exists metricsData,
    reports_query (googleAuth w) (reportQuery options) = Fulfilled metricsData /\
    formatReport Number_toString metricsData = Ok text /\
    target = editor.
Proof.
  rewrite fetchReportDetails_cases.
  destruct (reports_query _ _) as [metricsData|e'].
  - destruct (formatReport _ _) as [text'|e'] eqn:Hfmt;
      cbn [emit trace]; rewrite !in_app_iff; cbn [In];
      intros [[H|[H|[]]]|[H|[]]]; try discriminate H; auto.
    injection H as <- <-. right. exists metricsData. auto.
  - cbn [emit trace]. rewrite !in_app_iff. cbn [In].
    intros [[H|[H|[]]]|[H|[]]]; try discriminate H; auto.
Qed.

(** C5: when the query collaborator fails, it has been called once, one
    error dialog with the detail of the failure is opened, and nothing else
    happens: no text is inserted and no field of the plugin changes.  For
    the orchestrator as a whole the same holds after the authorization, if
    there was one.  And whatever the collaborators do, a text is inserted
    only when the query was fulfilled and the formatter returned that text. *)
Theorem fetchReportDetails_query_failure_reported
    (editor : Editor) (options : VideoReportOptions) (e : JsError) :
  (forall w,
     reports_query (googleAuth w) (reportQuery options) = Rejected e ->
     trace (fetch editor options w) =
       (trace w ++ [ReportsQuery (reportQuery options); retrievalFailed e])%list /\
     plugin (fetch editor options w) = plugin w) /\
  (forall w,
     (forall auth, reports_query auth (reportQuery options) = Rejected e) ->
     trace (run editor options w) =
       (trace w ++
        if shouldAuthenticate (oauth2Client (plugin w)) (clock w) then
          match authenticate (authOptions w) with
          | Fulfilled client =>
              [Authenticate (authOptions w); GoogleOptions client;
               ReportsQuery (reportQuery options); retrievalFailed e]
          | Rejected e' => [Authenticate (authOptions w); UnhandledRejection e']
          end
        else [ReportsQuery (reportQuery options); retrievalFailed e])%list) /\
  (forall w target text,
     In (ReplaceRange target text) (trace (run editor options w)) ->
     In (ReplaceRange target text) (trace w) \/
     exists auth metricsData,
       reports_query auth (reportQuery options) = Fulfilled metricsData /\
       formatReport Number_toString metricsData = Ok text /\
       target = editor).
Proof.
  split; [|split].
  - intros w Hrej. split; [|apply fetchReportDetails_plugin].
    rewrite fetchReportDetails_cases, Hrej.
    cbn [emit trace]. rewrite <- app_assoc. reflexivity.
  - intros w Hrej. rewrite runVideoReport_cases.
    destruct (shouldAuthenticate _ _).
    + destruct (authenticate _) as [client|e'].
      * rewrite fetchReportDetails_cases, Hrej.
        cbn [emit trace google_options set_oauth2Client].
        repeat rewrite <- app_assoc. reflexivity.
      * cbn [emit trace]. rewrite <- app_assoc. reflexivity.
    + rewrite fetchReportDetails_cases, Hrej.
      cbn [emit trace]. rewrite <- app_assoc. reflexivity.
  - intros w target text. rewrite runVideoReport_cases.
    destruct (shouldAuthenticate _ _).
    + destruct (authenticate _) as [client|e'].
      * intros H. apply fetchReportDetails_inserts_formatted in H
          as [H|(metricsData & Hq & Hfmt & ->)].
        -- left. revert H. cbn [emit trace google_options set_oauth2Client].
           rewrite !in_app_iff. cbn [In].
           intros [[H|[H|[]]]|[H|[]]]; try discriminate H; auto.
        -- right. eauto.
      * cbn [emit trace]. rewrite !in_app_iff. cbn [In].
        intros [[H|[H|[]]]|[H|[]]]; try discriminate H; auto.
    + intros H. apply fetchReportDetails_inserts_formatted in H
        as [H|(metricsData & Hq & Hfmt & ->)]; [auto|right; eauto].
Qed.

(** C7: the submitted options become the cached ones whether they are valid
    or not, and when they are not valid the only thing that happens besides
    is one error dialog with the violations: no authorization, no query. *)
Theorem onSubmit_caches_options (editor : Editor) (result : VideoReportOptions) (w : World) :
  previousReportOptions (plugin (submit editor result w)) = result /\
  (valid (validateOptions moment_isValid result) = false ->
   exists text,
     violations (validateOptions moment_isValid result) = Some text /\
     submit editor result w =
       emit (ModalOpen (ErrorModal ("Options set incorrectly:" ++ nl ++ text)))
         (set_previousReportOptions result w)) /\
  (valid (validateOptions moment_isValid result) = true ->
   submit editor result w = run editor result (set_previousReportOptions result w)).
Proof.
  unfold onSubmit.
  destruct (valid (validateOptions moment_isValid result)) eqn:Hvalid;
    cbn [negb]; (split; [|split]); try discriminate; try reflexivity.
  - rewrite runVideoReport_previousReportOptions. reflexivity.
  - intros _.
    destruct (validateOptions_invalid_text moment_isValid result Hvalid) as [text Htext].
    exists text. rewrite Htext. split; reflexivity.
Qed.

(** A submitted form goes through [onSubmit] with the edited options. *)
Lemma onRibbonClick_submitted (editor : Editor) (form : FormSession) (w : World) :
  oauth2KeysLocation (settings (plugin w)) <> EmptyString ->
  existsSync (path_normalize (oauth2KeysLocation (settings (plugin w)))) = true ->
  submitted form = true ->
  onRibbonClick Number_toString moment_isValid authenticate reports_query
    existsSync path_normalize (Some editor) form w =
  submit editor (edit form (previousReportOptions (plugin w)))
    (set_previousReportOptions (edit form (previousReportOptions (plugin w))) w).
Proof.
  intros Hset Hexists Hsubmitted. unfold onRibbonClick, truthy.
  destruct (oauth2KeysLocation (settings (plugin w))); [congruence|].
  cbn [String.eqb negb]. rewrite Hexists, Hsubmitted. reflexivity.
Qed.

End OrchestratorProperties.

(** A plugin that has just been loaded, with its key file configured. *)
Definition freshWorld : World :=
  {| plugin :=
       {| settings := {| mySetting := "default";
                         oauth2KeysLocation := "/home/me/oauth2.keys.json" |};
          oauth2Client := None;
          previousReportOptions :=
            {| endDate := "2024-01-31"; startDate := "2024-01-31";
               metrics := "views,comments,likes"; videoId := EmptyString |} |};
     googleAuth := None;
     clock := 1800000000000;
     trace := [] |}.

(** Collaborators that always fail. *)
Definition rejectingAuthenticate (_ : LocalAuthOptions) : Outcome OAuth2Client :=
  Rejected (Failure "Error: invalid_grant").

Definition rejectingQuery (_ : option OAuth2Client) (_ : Reports.Query) :
    Outcome (AnalyticsReport Z) :=
  Rejected (Failure "Error: The caller does not have permission").

Definition sampleOptions : VideoReportOptions :=
  {| endDate := "2024-01-31"; startDate := "2024-01-01";
     metrics := "views,likes"; videoId := "dQw4w9WgXcQ" |}.

Lemma runVideoReport_authorization_failure_unreported_witness :
  trace (runVideoReport Integer_toString rejectingAuthenticate rejectingQuery
           (EditorOf 0) sampleOptions freshWorld) =
    [Authenticate (authOptions freshWorld);
     UnhandledRejection (Failure "Error: invalid_grant")] /\
  plugin (runVideoReport Integer_toString rejectingAuthenticate rejectingQuery
            (EditorOf 0) sampleOptions freshWorld) = plugin freshWorld /\
  googleAuth (runVideoReport Integer_toString rejectingAuthenticate rejectingQuery
                (EditorOf 0) sampleOptions freshWorld) = googleAuth freshWorld.
Proof.
  exact (runVideoReport_authorization_failure_unreported
           Integer_toString rejectingAuthenticate rejectingQuery
           (EditorOf 0) sampleOptions freshWorld (Failure "Error: invalid_grant")
           eq_refl eq_refl).
Defined.

Lemma fetchReportDetails_query_failure_reported_witness :
  trace (fetchReportDetails Integer_toString rejectingQuery
           (EditorOf 0) sampleOptions freshWorld) =
    [ReportsQuery (reportQuery sampleOptions);
     ModalOpen (ErrorModal "Retrieval failed: Error: The caller does not have permission")] /\
  plugin (fetchReportDetails Integer_toString rejectingQuery
            (EditorOf 0) sampleOptions freshWorld) = plugin freshWorld.
Proof.
  exact (proj1 (fetchReportDetails_query_failure_reported
                  Integer_toString rejectingAuthenticate rejectingQuery
                  (EditorOf 0) sampleOptions
                  (Failure "Error: The caller does not have permission"))
           freshWorld eq_refl).
Defined.

Lemma onSubmit_caches_options_witness :
  previousReportOptions
    (plugin (onSubmit Integer_toString (fun _ => false) rejectingAuthenticate rejectingQuery
               (EditorOf 0) sampleOptions freshWorld)) = sampleOptions /\
  trace (onSubmit Integer_toString (fun _ => false) rejectingAuthenticate rejectingQuery
           (EditorOf 0) sampleOptions freshWorld) =
    [ModalOpen (ErrorModal
       ("Options set incorrectly:" ++ nl ++
        "startDate: not set correctly." ++ nl ++ tab ++ "endDate: not set correctly."))].
Proof.
  destruct (onSubmit_caches_options Integer_toString (fun _ => false)
              rejectingAuthenticate rejectingQuery (EditorOf 0) sampleOptions freshWorld)
    as (Hcache & Hinvalid & _).
  split; [exact Hcache|].
  destruct (Hinvalid eq_refl) as (text & Htext & Heq).
  rewrite Heq. injection Htext as <-. reflexivity.
Defined.

(** ** Strings: appending, trimming, splitting *)

Module JsStringFacts.

Lemma append_assoc (s t u : string) : (s ++ t) ++ u = s ++ (t ++ u).
Proof. induction s as [|c s IH]; cbn; [reflexivity|now rewrite IH]. Qed.

Lemma append_nil_r (s : string) : s ++ EmptyString = s.
Proof. induction s as [|c s IH]; cbn; [reflexivity|now rewrite IH]. Qed.

Lemma append_eq_nil (s t : string) : s ++ t = EmptyString -> s = EmptyString /\ t = EmptyString.
Proof. destruct s; cbn; [auto|discriminate]. Qed.

Lemma forallChars_app (f : ascii -> bool) (s t : string) :
  forallChars f (s ++ t) = forallChars f s && forallChars f t.
Proof.
  induction s as [|c s IH]; cbn [append forallChars]; [reflexivity|].
  rewrite IH. apply andb_assoc.
Qed.

Lemma forallChars_impl (f g : ascii -> bool) (s : string) :
  (forall c, f c = true -> g c = true) ->
  forallChars f s = true -> forallChars g s = true.
Proof.
  intros Hfg. induction s as [|c s IH]; cbn; [reflexivity|].
  rewrite !andb_true_iff. intros [Hc Hs]. auto.
Qed.

(** *** Trimming *)

Lemma trimStart_noLeadingSpace (s : string) :
  noLeadingSpace s = true -> trimStart s = s.
Proof.
  destruct s as [|c s]; cbn; [reflexivity|].
  destruct (isWhiteSpace c); [discriminate|reflexivity].
Qed.

Lemma noLeadingSpace_app (s t : string) :
  noLeadingSpace s = true -> noLeadingSpace t = true -> noLeadingSpace (s ++ t) = true.
Proof. destruct s; cbn; auto. Qed.

Lemma trimEnd_white (w : string) :
  forallChars isWhiteSpace w = true -> trimEnd w = EmptyString.
Proof.
  induction w as [|c w IH]; cbn; [reflexivity|].
  rewrite andb_true_iff. intros [Hc Hw]. rewrite (IH Hw), Hc. reflexivity.
Qed.

(** White space at the end does not count. *)
Lemma trimEnd_app_white (s w : string) :
  forallChars isWhiteSpace w = true -> trimEnd (s ++ w) = trimEnd s.
Proof.
  intros Hw. induction s as [|c s IH]; cbn.
  - now apply trimEnd_white.
  - rewrite IH. reflexivity.
Qed.

(** A string without white space is its own trimmed form. *)
Lemma trimEnd_solid (s : string) :
  forallChars (fun c => negb (isWhiteSpace c)) s = true -> trimEnd s = s.
Proof.
  induction s as [|c s IH]; cbn; [reflexivity|].
  rewrite andb_true_iff. intros [Hc Hs]. rewrite (IH Hs).
  destruct s; [|reflexivity].
  destruct (isWhiteSpace c); [discriminate|reflexivity].
Qed.

(** What is kept at the end keeps everything before it. *)
Lemma trimEnd_app_kept (s t : string) :
  trimEnd t = t -> t <> EmptyString -> trimEnd (s ++ t) = s ++ t.
Proof.
  intros Ht Hne. induction s as [|c s IH]; cbn; [exact Ht|].
  rewrite IH. destruct (s ++ t) eqn:E; [|reflexivity].
  apply append_eq_nil in E. tauto.
Qed.

(** *** Splitting into lines *)

Definition noLineBreak (s : string) : bool :=
  forallChars (fun c => negb (Ascii.eqb c LF)) s.

Lemma splitLines_nonempty (s : string) : splitLines s <> [].
Proof.
  induction s as [|c s IH]; cbn; [discriminate|].
  destruct (Ascii.eqb c LF); [discriminate|].
  destruct (splitLines s); [congruence|discriminate].
Qed.

Lemma splitLines_single (s : string) :
  noLineBreak s = true -> splitLines s = [s].
Proof.
  unfold noLineBreak. induction s as [|c s IH]; cbn; [reflexivity|].
  rewrite andb_true_iff. intros [Hc Hs].
  destruct (Ascii.eqb c LF); [discriminate|]. rewrite (IH Hs). reflexivity.
Qed.

Lemma splitLines_first (s rest : string) :
  noLineBreak s = true -> splitLines (s ++ nl ++ rest) = s :: splitLines rest.
Proof.
  unfold noLineBreak. induction s as [|c s IH]; cbn.
  - intros _. reflexivity.
  - rewrite andb_true_iff. intros [Hc Hs].
    destruct (Ascii.eqb c LF); [discriminate|].
    cbn in IH. rewrite (IH Hs). reflexivity.
Qed.

Lemma splitLines_join (parts : list string) :
  parts <> [] ->
  Forall (fun p => noLineBreak p = true) parts ->
  splitLines (join nl parts) = parts.
Proof.
  induction parts as [|p ps IH]; [congruence|].
  intros _ Hall. inversion Hall as [|? ? Hp Hps]; subst.
  destruct ps as [|q qs]; [now apply splitLines_single|].
  change (join nl (p :: q :: qs)) with (p ++ nl ++ join nl (q :: qs)).
  rewrite splitLines_first by assumption.
  rewrite IH by (assumption || discriminate). reflexivity.
Qed.

(** *** Cutting at the separator of a line *)

Definition separator : string := ":: ".

(** The separator cannot start inside [s] and end in a separator that
    follows [s]: none of its proper prefixes is one of its suffixes. *)
Lemma stripPrefix_separator_straddle (s rest : string) :
  s <> EmptyString ->
  stripPrefix separator s = None ->
  stripPrefix separator (s ++ separator ++ rest) = None.
Proof.
  unfold separator.
  destruct s as [|a s]; [congruence|]. intros _.
  cbn [stripPrefix append].
  destruct (Ascii.eqb ":" a); [|reflexivity].
  destruct s as [|b s]; cbn [stripPrefix append]; [reflexivity|].
  destruct (Ascii.eqb ":" b); [|reflexivity].
  destruct s as [|d s]; cbn [stripPrefix append]; [reflexivity|].
  destruct (Ascii.eqb " " d); [discriminate|reflexivity].
Qed.

Lemma includes_false_head (p : string) (c : ascii) (s : string) :
  includes p (String c s) = false ->
  stripPrefix p (String c s) = None /\ includes p s = false.
Proof.
  cbn [includes]. destruct (stripPrefix p (String c s)); [discriminate|auto].
Qed.

(** A name without separator is what [cutAt] finds before the separator
    that follows it. *)
Lemma cutAt_separator (columnName rest : string) :
  includes separator columnName = false ->
  cutAt separator (columnName ++ separator ++ rest) = Some (columnName, rest).
Proof.
  induction columnName as [|c s IH]; intros Hfree.
  - reflexivity.
  - apply includes_false_head in Hfree as [Hhead Htail].
    change ((String c s ++ separator ++ rest)) with (String c (s ++ separator ++ rest)).
    cbn [cutAt].
    change (String c (s ++ separator ++ rest)) with (String c s ++ separator ++ rest).
    rewrite stripPrefix_separator_straddle by (assumption || discriminate).
    rewrite (IH Htail). reflexivity.
Qed.

End JsStringFacts.
Import JsStringFacts.

(** ** The report formatter *)

Lemma concatStrings_app (xs ys : list string) :
  concatStrings (xs ++ ys) = concatStrings xs ++ concatStrings ys.
Proof.
  unfold concatStrings.
  induction xs as [|x xs IH]; cbn [app fold_right]; [reflexivity|].
  rewrite IH, append_assoc. reflexivity.
Qed.

Lemma skipn_nth_error {A : Type} (l : list A) (j : nat) (x : A) :
  nth_error l j = Some x -> skipn j l = x :: skipn (S j) l.
Proof.
  revert l. induction j as [|j IH]; intros [|y l]; cbn; try discriminate.
  - intros [= ->]. reflexivity.
  - intros H. apply (IH l H).
Qed.

(** The message of the [TypeError] raised by [undefined.name]. *)
Definition undefinedName : JsError :=
  TypeError "Cannot read properties of undefined (reading 'name')".

Section FormatterProperties.

Context {number : Type}.
Variable Number_toString : number -> string.

(** Every row is as long as the list of column headers. *)
Definition wellShaped (data : AnalyticsReport number) : Prop :=
  Forall (fun row => List.length row = List.length (columnHeaders data)) (rows data).

(** The cells of a report as the specification walks them: row after row,
    and in a row each cell with the name of the header at its position. *)
Definition reportCells (data : AnalyticsReport number) : list (string * number) :=
  flat_map (fun row => combine (map name (columnHeaders data)) row) (rows data).

(** One line per cell, each closed by a line break, put end to end. *)
Definition emittedLines (cells : list (string * number)) : string :=
  concatStrings (map (fun cell => cellLine Number_toString (fst cell) (snd cell)) cells).

Lemma emittedLines_app (xs ys : list (string * number)) :
  emittedLines (xs ++ ys) = emittedLines xs ++ emittedLines ys.
Proof. unfold emittedLines. rewrite map_app. apply concatStrings_app. Qed.

(** The inner loop on a row that does not run past the headers. *)
Lemma formatCells_within (headers : list AnalyticsReportColumn) (cells : list number) :
  forall (j : nat) (frontMattered : string),
    (j + List.length cells <= List.length headers)%nat ->
    formatCells Number_toString headers j cells frontMattered =
      Ok (frontMattered ++ emittedLines (combine (skipn j (map name headers)) cells)).
Proof.
  induction cells as [|dataValue cells IH]; intros j frontMattered Hlen.
  - cbn [formatCells]. rewrite combine_nil. cbn. now rewrite append_nil_r.
  - cbn [formatCells List.length] in *.
    destruct (nth_error headers j) as [column|] eqn:Hj.
    + rewrite IH by lia.
      rewrite (skipn_nth_error (map name headers) j (name column))
        by (now apply map_nth_error).
      cbn [combine]. unfold emittedLines at 2. cbn [map concatStrings fold_right fst snd].
      fold (concatStrings (map (fun cell => cellLine Number_toString (fst cell) (snd cell))
                             (combine (skipn (S j) (map name headers)) cells))).
      fold (emittedLines (combine (skipn (S j) (map name headers)) cells)).
      rewrite append_assoc. reflexivity.
    + apply nth_error_None in Hj. lia.
Qed.

(** The inner loop on a row that runs past the headers. *)
Lemma formatCells_beyond (headers : list AnalyticsReportColumn) (cells : list number) :
  forall (j : nat) (frontMattered : string),
    (j <= List.length headers)%nat ->
    (List.length headers < j + List.length cells)%nat ->
    formatCells Number_toString headers j cells frontMattered = Throw undefinedName.
Proof.
  induction cells as [|dataValue cells IH]; intros j frontMattered Hj Hlen.
  - cbn [List.length] in Hlen. lia.
  - cbn [formatCells List.length] in *.
    destruct (nth_error headers j) as [column|] eqn:Hnth; [|reflexivity].
    assert (j < List.length headers)%nat by (apply nth_error_Some; congruence).
    apply IH; lia.
Qed.

Lemma formatRows_within (headers : list AnalyticsReportColumn) (remaining : list (list number)) :
  forall frontMattered : string,
    Forall (fun row => (List.length row <= List.length headers)%nat) remaining ->
    formatRows Number_toString headers remaining frontMattered =
      Ok (frontMattered ++
          emittedLines (flat_map (fun row => combine (map name headers) row) remaining)).
Proof.
  induction remaining as [|row remaining IH]; intros frontMattered Hall.
  - cbn. now rewrite append_nil_r.
  - inversion Hall as [|? ? Hrow Hrest]; subst.
    cbn [formatRows flat_map].
    rewrite formatCells_within by (cbn; lia).
    rewrite IH by assumption.
    cbn [skipn]. rewrite emittedLines_app, append_assoc. reflexivity.
Qed.

Lemma formatRows_beyond (headers : list AnalyticsReportColumn) (remaining : list (list number)) :
  forall frontMattered : string,
    Exists (fun row => (List.length headers < List.length row)%nat) remaining ->
    formatRows Number_toString headers remaining frontMattered = Throw undefinedName.
Proof.
  induction remaining as [|row remaining IH]; intros frontMattered Hex.
  - inversion Hex.
  - cbn [formatRows].
    destruct (Nat.le_gt_cases (List.length row) (List.length headers)) as [Hle|Hgt].
    + rewrite formatCells_within by (cbn; lia).
      apply IH. inversion Hex; subst; [lia|assumption].
    + rewrite formatCells_beyond by (cbn; lia). reflexivity.
Qed.

(** On a well-shaped report the loops of [formatReport] walk the cells of
    the specification, and no cell is left out. *)
Lemma formatReport_wellShaped (data : AnalyticsReport number) :
  wellShaped data ->
  formatReport Number_toString data = Ok (trim (emittedLines (reportCells data))) /\
  map snd (reportCells data) = List.concat (rows data).
Proof.
  intros Hshape. split.
  - unfold formatReport, reportCells.
    rewrite formatRows_within.
    + reflexivity.
    + eapply Forall_impl; [|exact Hshape]. cbn. intros row ->. lia.
  - unfold reportCells, wellShaped in *.
    induction (rows data) as [|row remaining IH]; [reflexivity|].
    inversion Hshape as [|? ? Hrow Hrest]; subst.
    cbn [flat_map List.concat]. rewrite map_app, (IH Hrest). f_equal.
    clear - Hrow. rewrite <- (length_map name) in Hrow.
    revert row Hrow. induction (map name (columnHeaders data)) as [|h hs IHh];
      intros [|v row] Hlen; cbn in *; try discriminate; [reflexivity|].
    f_equal. apply IHh. congruence.
Qed.

(** C6 (amended): when some row is longer than the list of column headers,
    [formatReport] produces no result: reading the name of the header past
    the end of the array throws a [TypeError]. *)
Theorem formatReport_row_too_long (data : AnalyticsReport number) :
  Exists (fun row => (List.length (columnHeaders data) < List.length row)%nat) (rows data) ->
  formatReport Number_toString data = Throw undefinedName.
Proof.
  intros Hex. unfold formatReport. rewrite formatRows_beyond by assumption.
  reflexivity.
Qed.

End FormatterProperties.

(** ** Reading the formatted text back *)

Lemma noLeadingSpace_app_l (s t : string) :
  s <> EmptyString -> noLeadingSpace s = true -> noLeadingSpace (s ++ t) = true.
Proof. destruct s; cbn; [congruence|auto]. Qed.

Lemma solid_noLineBreak (s : string) :
  forallChars (fun c => negb (isWhiteSpace c)) s = true -> noLineBreak s = true.
Proof.
  apply forallChars_impl. intros c.
  destruct (Ascii.eqb_spec c LF) as [->|]; [discriminate|reflexivity].
Qed.

(** The names in the cells are names of column headers. *)
Lemma reportCells_names {number : Type} (P : string -> Prop) (data : AnalyticsReport number) :
  Forall (fun column => P (name column)) (columnHeaders data) ->
  Forall (fun cell => P (fst cell)) (reportCells data).
Proof.
  intros Hall. apply Forall_forall. intros [columnName dataValue] Hin.
  apply in_flat_map in Hin as (row & _ & Hin).
  apply in_combine_l, in_map_iff in Hin as (column & <- & Hcolumn).
  rewrite Forall_forall in Hall. now apply Hall.
Qed.

(** The first cell of a well-shaped report is under the first header. *)
Lemma reportCells_first {number : Type} (data : AnalyticsReport number)
    (cell : string * number) (rest : list (string * number)) :
  wellShaped data ->
  reportCells data = cell :: rest ->
  exists column, hd_error (columnHeaders data) = Some column /\ fst cell = name column.
Proof.
  unfold wellShaped, reportCells.
  destruct (columnHeaders data) as [|column headers]; intros Hshape.
  - induction (rows data) as [|row remaining IH]; [discriminate|].
    inversion Hshape; subst. cbn [flat_map map combine app]. now apply IH.
  - destruct (rows data) as [|row remaining]; [discriminate|].
    inversion Hshape as [|? ? Hrow _]; subst.
    destruct row as [|dataValue row]; [discriminate|].
    cbn [flat_map map combine app]. intros [= <- _].
    exists column. split; reflexivity.
Qed.

Section RoundTrip.

Context {number : Type}.
Variable Number_toString : number -> string.

(** [Number(text)], which reads back what Number::toString wrote. *)
Variable Number_ofString : string -> option number.

(** Number::toString writes at least one character and no white space. *)
Hypothesis Number_toString_solid :
  forall v, Number_toString v <> EmptyString /\
            forallChars (fun c => negb (isWhiteSpace c)) (Number_toString v) = true.

Hypothesis Number_ofString_toString :
  forall v, Number_ofString (Number_toString v) = Some v.

(** Modelled from the spec: the line parser of the round-trip property,
    which reads a line as [name:: value].  The repository has no parser;
    this one cuts a line at its first separator. *)
Definition parseLine (line : string) : option (string * number) :=
  match cutAt separator line with
  | Some (columnName, text) =>
      match Number_ofString text with
      | Some dataValue => Some (columnName, dataValue)
      | None => None
      end
  | None => None
  end.

Fixpoint parseLines (lines : list string) : option (list (string * number)) :=
  match lines with
  | [] => Some []
  | line :: lines' =>
      match parseLine line, parseLines lines' with
      | Some cell, Some cells => Some (cell :: cells)
      | _, _ => None
      end
  end.

(** Modelled from the spec: the parser applied to a whole text, line by
    line; the empty text has no line. *)
Definition parseReport (text : string) : option (list (string * number)) :=
  if text =? EmptyString then Some [] else parseLines (splitLines text).

(** A line without its line break. *)
Definition cellText (cell : string * number) : string :=
  fst cell ++ separator ++ Number_toString (snd cell).

(** What the round trip asks of a column name. *)
Definition plainName (columnName : string) : Prop :=
  noLineBreak columnName = true /\ includes separator columnName = false.

Lemma cellLine_cellText (cell : string * number) :
  cellLine Number_toString (fst cell) (snd cell) = cellText cell ++ nl.
Proof.
  unfold cellLine, cellText, separator. now rewrite !append_assoc.
Qed.

Lemma emittedLines_join (cell : string * number) (rest : list (string * number)) :
  emittedLines Number_toString (cell :: rest) = join nl (map cellText (cell :: rest)) ++ nl.
Proof.
  revert cell. induction rest as [|next rest IH]; intros cell.
  - unfold emittedLines. cbn [map concatStrings fold_right join].
    now rewrite cellLine_cellText, append_nil_r.
  - change (emittedLines Number_toString (cell :: next :: rest))
      with (cellLine Number_toString (fst cell) (snd cell) ++
            emittedLines Number_toString (next :: rest)).
    rewrite IH, cellLine_cellText.
    change (join nl (map cellText (cell :: next :: rest)))
      with (cellText cell ++ nl ++ join nl (map cellText (next :: rest))).
    now rewrite !append_assoc.
Qed.

Lemma cellText_nonempty (cell : string * number) : cellText cell <> EmptyString.
Proof.
  unfold cellText. intros E.
  apply append_eq_nil in E as [_ E]. discriminate E.
Qed.

Lemma cellText_trimEnd (cell : string * number) : trimEnd (cellText cell) = cellText cell.
Proof.
  unfold cellText. rewrite <- append_assoc.
  destruct (Number_toString_solid (snd cell)) as [Hne Hsolid].
  apply trimEnd_app_kept; [now apply trimEnd_solid|assumption].
Qed.

Lemma cellText_noLineBreak (cell : string * number) :
  noLineBreak (fst cell) = true -> noLineBreak (cellText cell) = true.
Proof.
  intros Hname. unfold cellText, noLineBreak in *.
  rewrite !forallChars_app, Hname.
  destruct (Number_toString_solid (snd cell)) as [_ Hsolid].
  apply solid_noLineBreak in Hsolid. unfold noLineBreak in Hsolid.
  rewrite Hsolid. reflexivity.
Qed.

Lemma cellText_noLeadingSpace (cell : string * number) :
  noLeadingSpace (fst cell) = true -> noLeadingSpace (cellText cell) = true.
Proof.
  intros Hname. unfold cellText. apply noLeadingSpace_app; [assumption|reflexivity].
Qed.

(** The lines joined by line breaks end with the last value. *)
Lemma join_cellText_kept (cell : string * number) (rest : list (string * number)) :
  join nl (map cellText (cell :: rest)) <> EmptyString /\
  trimEnd (join nl (map cellText (cell :: rest))) = join nl (map cellText (cell :: rest)).
Proof.
  revert cell. induction rest as [|next rest IH]; intros cell.
  - cbn [map join]. split; [apply cellText_nonempty|apply cellText_trimEnd].
  - change (join nl (map cellText (cell :: next :: rest)))
      with (cellText cell ++ nl ++ join nl (map cellText (next :: rest))).
    destruct (IH next) as [Hne Hkept]. split.
    + intros E. apply append_eq_nil in E as [E _]. now apply cellText_nonempty in E.
    + rewrite <- append_assoc. now apply trimEnd_app_kept.
Qed.

Lemma join_cellText_noLeadingSpace (cell : string * number) (rest : list (string * number)) :
  noLeadingSpace (fst cell) = true ->
  noLeadingSpace (join nl (map cellText (cell :: rest))) = true.
Proof.
  intros Hname. destruct rest as [|next rest].
  - cbn [map join]. now apply cellText_noLeadingSpace.
  - change (join nl (map cellText (cell :: next :: rest)))
      with (cellText cell ++ nl ++ join nl (map cellText (next :: rest))).
    apply noLeadingSpace_app_l;
      [apply cellText_nonempty|now apply cellText_noLeadingSpace].
Qed.

(** Trimming the emitted lines removes the last line break and nothing
    else, when the first name does not start with white space. *)
Lemma trim_emittedLines (cell : string * number) (rest : list (string * number)) :
  noLeadingSpace (fst cell) = true ->
  trim (emittedLines Number_toString (cell :: rest)) = join nl (map cellText (cell :: rest)).
Proof.
  intros Hname. rewrite emittedLines_join. unfold trim.
  destruct (join_cellText_kept cell rest) as [Hne Hkept].
  rewrite trimStart_noLeadingSpace
    by (apply noLeadingSpace_app_l; [assumption|now apply join_cellText_noLeadingSpace]).
  rewrite trimEnd_app_white by reflexivity. exact Hkept.
Qed.

Lemma parseLine_cellText (cell : string * number) :
  includes separator (fst cell) = false -> parseLine (cellText cell) = Some cell.
Proof.
  intros Hname. unfold parseLine, cellText.
  rewrite cutAt_separator by assumption.
  rewrite Number_ofString_toString. now destruct cell.
Qed.

Lemma parseLines_cellText (cells : list (string * number)) :
  Forall (fun cell => plainName (fst cell)) cells ->
  parseLines (map cellText cells) = Some cells.
Proof.
  induction 1 as [|cell cells [_ Hname] _ IH]; [reflexivity|].
  cbn [map parseLines]. now rewrite parseLine_cellText, IH.
Qed.

(** The parser gives back the cells whose lines were emitted. *)
Lemma parseReport_emittedLines (cells : list (string * number)) :
  Forall (fun cell => plainName (fst cell)) cells ->
  (forall cell rest, cells = cell :: rest -> noLeadingSpace (fst cell) = true) ->
  parseReport (trim (emittedLines Number_toString cells)) = Some cells.
Proof.
  intros Hplain Hfirst. destruct cells as [|cell rest]; [reflexivity|].
  rewrite trim_emittedLines by (now apply (Hfirst cell rest)).
  destruct (join_cellText_kept cell rest) as [Hne _].
  unfold parseReport.
  destruct (String.eqb_spec (join nl (map cellText (cell :: rest))) EmptyString) as [E|_];
    [congruence|].
  rewrite splitLines_join.
  - now apply parseLines_cellText.
  - discriminate.
  - apply Forall_map. eapply Forall_impl; [|exact Hplain].
    intros c [Hc _]. now apply cellText_noLineBreak.
Qed.

(** C9 (amended): on a well-shaped report whose column names have no line
    break and no separator, and whose first column name does not start with
    white space, reading the formatted text line by line gives back the
    cells, each name with its value, in the order of the report. *)
Theorem formatReport_parse_round_trip (data : AnalyticsReport number) :
  wellShaped data ->
  Forall (fun column => plainName (name column)) (columnHeaders data) ->
  (forall column, hd_error (columnHeaders data) = Some column ->
                  noLeadingSpace (name column) = true) ->
  exists text,
    formatReport Number_toString data = Ok text /\
    parseReport text = Some (reportCells data).
Proof.
  intros Hshape Hplain Hfirst.
  exists (trim (emittedLines Number_toString (reportCells data))). split.
  - now apply formatReport_wellShaped.
  - apply parseReport_emittedLines.
    + now apply reportCells_names.
    + intros cell rest Hcells.
      destruct (reportCells_first data cell rest Hshape Hcells) as (column & Hhd & ->).
      now apply Hfirst.
Qed.

End RoundTrip.

(** ** Reports with integer cells *)

Lemma string_of_uint_solid (d : Decimal.uint) :
  forallChars (fun c => negb (isWhiteSpace c)) (NilEmpty.string_of_uint d) = true.
Proof.
  induction d; cbn [NilEmpty.string_of_uint forallChars];
    try rewrite IHd; reflexivity.
Qed.

Lemma Integer_toString_solid (z : Z) :
  Integer_toString z <> EmptyString /\
  forallChars (fun c => negb (isWhiteSpace c)) (Integer_toString z) = true.
Proof.
  unfold Integer_toString.
  assert (Hu : forall d, NilZero.string_of_uint d <> EmptyString /\
                         forallChars (fun c => negb (isWhiteSpace c))
                           (NilZero.string_of_uint d) = true).
  { intros d. split.
    - destruct d; discriminate.
    - destruct d as [|d|d|d|d|d|d|d|d|d|d]; [reflexivity|..];
        match goal with
        | |- forallChars _ (NilZero.string_of_uint ?u) = true =>
            exact (string_of_uint_solid u)
        end. }
  destruct z as [|p|p]; cbn [Z.to_int NilZero.string_of_int].
  - apply Hu.
  - apply Hu.
  - split; [discriminate|].
    cbn [forallChars]. now rewrite (proj2 (Hu _)).
Qed.

Lemma Integer_ofString_toString (z : Z) :
  Integer_ofString (Integer_toString z) = Some z.
Proof.
  unfold Integer_ofString, Integer_toString.
  rewrite NilZero.isi.
  - cbn [option_map]. now rewrite DecimalZ.of_to.
  - destruct z; cbn; intros [= E]; try discriminate E.
    now apply Unsigned.to_uint_nonnil in E.
  - destruct z; cbn; intros [= E].
    now apply Unsigned.to_uint_nonnil in E.
Qed.

Definition metricColumn (columnName : string) : AnalyticsReportColumn :=
  {| name := columnName; columnType := "METRIC"; dataType := "INTEGER" |}.

(** The report of the specification's example. *)
Definition viewsAndLikes : AnalyticsReport Z :=
  {| columnHeaders := [metricColumn "views"; metricColumn "likes"];
     rows := [[10; 2]; [20; 4]] |}.

(** A report whose only column name starts with a space. *)
Definition paddedReport : AnalyticsReport Z :=
  {| columnHeaders := [metricColumn " views"]; rows := [[10]] |}.

(** A report whose only row has one cell more than there are headers. *)
Definition overlongReport : AnalyticsReport Z :=
  {| columnHeaders := [metricColumn "views"]; rows := [[10; 2]] |}.

(** C4 (amended): on a report whose rows are as long as the list of column
    headers, [formatReport] returns the lines of all the cells, row after
    row and in a row in column order, each line [name:: value] closed by a
    line break, put end to end and trimmed of white space at both ends.
    The example of the specification gives the four lines it says, and a
    report without rows gives the empty string. *)
Theorem formatReport_emits_every_cell :
  (forall (number : Type) (Number_toString : number -> string)
          (data : AnalyticsReport number),
     wellShaped data ->
     formatReport Number_toString data =
       Ok (trim (emittedLines Number_toString (reportCells data))) /\
     map snd (reportCells data) = List.concat (rows data)) /\
  formatReport Integer_toString viewsAndLikes =
    Ok ("views:: 10" ++ nl ++ "likes:: 2" ++ nl ++ "views:: 20" ++ nl ++ "likes:: 4") /\
  (forall (number : Type) (Number_toString : number -> string)
          (headers : list AnalyticsReportColumn),
     formatReport Number_toString {| columnHeaders := headers; rows := [] |} =
       Ok EmptyString).
Proof.
  split; [|split].
  - intros number Number_toString data. apply formatReport_wellShaped.
  - reflexivity.
  - reflexivity.
Qed.

Lemma formatReport_emits_every_cell_witness :
  wellShaped viewsAndLikes /\
  formatReport Integer_toString viewsAndLikes =
    Ok (trim (emittedLines Integer_toString
                [("views", 10); ("likes", 2); ("views", 20); ("likes", 4)])) /\
  map snd (reportCells viewsAndLikes) = [10; 2; 20; 4].
Proof.
  assert (Hshape : wellShaped viewsAndLikes) by (repeat constructor).
  split; [exact Hshape|].
  exact (proj1 formatReport_emits_every_cell Z Integer_toString viewsAndLikes Hshape).
Defined.

(** C4 as stated fails: trimming the end only would keep the space in
    front of the first name, which [formatReport] removes. *)
Lemma formatReport_strips_leading_space :
  wellShaped paddedReport /\
  formatReport Integer_toString paddedReport = Ok "views:: 10" /\
  trimEnd (emittedLines Integer_toString (reportCells paddedReport)) = " views:: 10".
Proof.
  split; [repeat constructor|]. split; reflexivity.
Qed.

(** C6 as stated fails: with a row of two cells under one header no text is
    produced. *)
Lemma formatReport_overlong_row_throws :
  Exists (fun row => (List.length (columnHeaders overlongReport) < List.length row)%nat)
    (rows overlongReport) /\
  formatReport Integer_toString overlongReport =
    Throw (TypeError "Cannot read properties of undefined (reading 'name')").
Proof.
  split; [|reflexivity]. apply Exists_cons_hd. cbn. lia.
Qed.

Lemma formatReport_row_too_long_witness :
  formatReport Integer_toString overlongReport = Throw undefinedName.
Proof.
  apply formatReport_row_too_long. apply Exists_cons_hd. exact (le_n 2).
Defined.

(** C9 as stated fails: the name [" views"] has no line break and no
    separator, but the text read back names the column ["views"]. *)
Lemma formatReport_round_trip_loses_leading_space :
  wellShaped paddedReport /\
  Forall (fun column => plainName (name column)) (columnHeaders paddedReport) /\
  formatReport Integer_toString paddedReport = Ok "views:: 10" /\
  parseReport Integer_ofString "views:: 10" = Some [("views", 10)] /\
  reportCells paddedReport = [(" views", 10)].
Proof.
  split; [repeat constructor|].
  split; [repeat constructor|].
  repeat split; reflexivity.
Qed.

Lemma formatReport_parse_round_trip_witness :
  exists text,
    formatReport Integer_toString viewsAndLikes = Ok text /\
    parseReport Integer_ofString text =
      Some [("views", 10); ("likes", 2); ("views", 20); ("likes", 4)].
Proof.
  apply (formatReport_parse_round_trip Integer_toString Integer_ofString
           Integer_toString_solid Integer_ofString_toString viewsAndLikes).
  - repeat constructor.
  - repeat constructor.
  - intros column [= <-]. reflexivity.
Defined.

(* ================================================================== *)
(** * Part III: further properties of the plugin *)
(* ================================================================== *)

(** ** The freshness check and the clock *)

(** X1: the answer of the freshness check depends on the clock through its
    milliseconds field only: two times a whole number of seconds apart get
    the same answer for the same cached credential. *)
Theorem shouldAuthenticate_whole_seconds
    (oauth2Client : option OAuth2Client) (now seconds : Z) :
  shouldAuthenticate oauth2Client (now + 1000 * seconds) =
  shouldAuthenticate oauth2Client now.
Proof.
  unfold shouldAuthenticate, getUTCMilliseconds.
  rewrite (Z.mul_comm 1000 seconds), Z_mod_plus_full. reflexivity.
Qed.

(** ** The paths of the orchestrator that end well *)

Section OrchestratorPaths.

Context {number : Type}.
Variable Number_toString : number -> string.
Variable moment_isValid : string -> bool.
Variable authenticate : LocalAuthOptions -> Outcome OAuth2Client.
Variable reports_query : option OAuth2Client -> Reports.Query -> Outcome (AnalyticsReport number).
Variable existsSync : string -> bool.
Variable path_normalize : string -> string.

Local Abbreviation fetch := (fetchReportDetails Number_toString reports_query).
Local Abbreviation run := (runVideoReport Number_toString authenticate reports_query).
Local Abbreviation submit := (onSubmit Number_toString moment_isValid authenticate reports_query).
Local Abbreviation click :=
  (onRibbonClick Number_toString moment_isValid authenticate reports_query
     existsSync path_normalize).

(** What the last effect of a query is, by how the query settles. *)
Definition queryOutcome (editor : Editor)
    (settled : Outcome (AnalyticsReport number)) : Effect :=
  match settled with
  | Fulfilled metricsData =>
      match formatReport Number_toString metricsData with
      | Ok text => ReplaceRange editor text
      | Throw e => retrievalFailed e
      end
  | Rejected e => retrievalFailed e
  end.

Lemma fetchReportDetails_trace (editor : Editor) (options : VideoReportOptions) (w : World) :
  trace (fetch editor options w) =
    (trace w ++
     [ReportsQuery (reportQuery options);
      queryOutcome editor (reports_query (googleAuth w) (reportQuery options))])%list /\
  plugin (fetch editor options w) = plugin w /\
  googleAuth (fetch editor options w) = googleAuth w.
Proof.
  rewrite fetchReportDetails_cases. unfold queryOutcome.
  destruct (reports_query _ _) as [metricsData|e];
    [destruct (formatReport _ _)|];
    cbn [emit trace plugin googleAuth]; rewrite <- app_assoc; auto.
Qed.

(** X2: with a cached credential that the freshness check accepts, a query
    that is fulfilled and a report the formatter accepts, the orchestrator
    does not authenticate, queries once and inserts the formatted text once
    in the editor it was given; the fields of the plugin stay as they are. *)
Theorem runVideoReport_cached_credential_inserts
    (editor : Editor) (options : VideoReportOptions) (w : World)
    (metricsData : AnalyticsReport number) (text : string) :
  shouldAuthenticate (oauth2Client (plugin w)) (clock w) = false ->
  reports_query (googleAuth w) (reportQuery options) = Fulfilled metricsData ->
  formatReport Number_toString metricsData = Ok text ->
  trace (run editor options w) =
    (trace w ++ [ReportsQuery (reportQuery options); ReplaceRange editor text])%list /\
  plugin (run editor options w) = plugin w /\
  googleAuth (run editor options w) = googleAuth w.
Proof.
  intros Hfresh Hquery Hformat. rewrite runVideoReport_cases, Hfresh.
  destruct (fetchReportDetails_trace editor options w) as (Htrace & Hplugin & Hauth).
  rewrite Htrace, Hquery. unfold queryOutcome. rewrite Hformat. auto.
Qed.

(** X3: when the freshness check asks for it and the authorization is
    fulfilled, the new client replaces the cached one, becomes the [auth]
    option of the [google] object, and is the one the query is made with;
    the effects are, in this order, the authorization, the option, one query
    and its outcome.  Settings and cached options are not touched. *)
Theorem runVideoReport_authorization_then_query
    (editor : Editor) (options : VideoReportOptions) (w : World) (client : OAuth2Client) :
  shouldAuthenticate (oauth2Client (plugin w)) (clock w) = true ->
  authenticate (authOptions w) = Fulfilled client ->
  trace (run editor options w) =
    (trace w ++
     [Authenticate (authOptions w); GoogleOptions client;
      ReportsQuery (reportQuery options);
      queryOutcome editor (reports_query (Some client) (reportQuery options))])%list /\
  oauth2Client (plugin (run editor options w)) = Some client /\
  googleAuth (run editor options w) = Some client /\
  settings (plugin (run editor options w)) = settings (plugin w) /\
  previousReportOptions (plugin (run editor options w)) = previousReportOptions (plugin w).
Proof.
  intros Hneed Hauth. rewrite runVideoReport_cases, Hneed, Hauth.
  destruct (fetchReportDetails_trace editor options
              (google_options client
                 (set_oauth2Client client (emit (Authenticate (authOptions w)) w))))
    as (Htrace & Hplugin & Hgoogle).
  rewrite Htrace, Hplugin, Hgoogle.
  cbn [google_options set_oauth2Client emit trace plugin googleAuth
       oauth2Client settings previousReportOptions].
  repeat rewrite <- app_assoc. auto.
Qed.

(** X4: a client obtained by an authorization whose expiry is a timestamp
    from 999 on is used by every later run, at whatever time: no later run
    authenticates again. *)
Theorem runVideoReport_credential_reused
    (editor : Editor) (options : VideoReportOptions) (w : World)
    (client : OAuth2Client) (expiry : Z)
    (editor' : Editor) (options' : VideoReportOptions) (later : World) :
  shouldAuthenticate (oauth2Client (plugin w)) (clock w) = true ->
  authenticate (authOptions w) = Fulfilled client ->
  expiry_date (credentials client) = Some expiry ->
  999 <= expiry ->
  plugin later = plugin (run editor options w) ->
  run editor' options' later = fetch editor' options' later /\
  forall options'', ~ In (Authenticate options'')
                        (skipn (List.length (trace later)) (trace (run editor' options' later))).
Proof.
  intros Hneed Hauth Hexpiry Hlarge Hlater.
  assert (Hclient : oauth2Client (plugin later) = Some client).
  { rewrite Hlater, runVideoReport_cases, Hneed, Hauth.
    destruct (fetchReportDetails_trace editor options
                (google_options client
                   (set_oauth2Client client (emit (Authenticate (authOptions w)) w))))
      as (_ & Hplugin & _).
    rewrite Hplugin. reflexivity. }
  assert (Hfresh : shouldAuthenticate (oauth2Client (plugin later)) (clock later) = false).
  { destruct (shouldAuthenticate (oauth2Client (plugin later)) (clock later)) eqn:Hcheck;
      [|reflexivity].
    apply shouldAuthenticate_true_iff in Hcheck
      as [Hnone|(c & Hc & [Hnone|[Hzero|(e & He & Hgt)]])]; try congruence.
    - rewrite Hclient in Hc. injection Hc as <-. rewrite Hexpiry in Hzero.
      injection Hzero as ->. lia.
    - rewrite Hclient in Hc. injection Hc as <-. rewrite Hexpiry in He.
      injection He as <-. pose proof (Z.mod_pos_bound (clock later) 1000). lia. }
  assert (Hrun : run editor' options' later = fetch editor' options' later).
  { rewrite runVideoReport_cases, Hfresh. reflexivity. }
  split; [exact Hrun|].
  intros options''. rewrite Hrun.
  destruct (fetchReportDetails_trace editor' options' later) as (Htrace & _ & _).
  rewrite Htrace, skipn_app, Nat.sub_diag, skipn_all. cbn [app skipn In].
  intros [H|[H|[]]]; [discriminate H|].
  revert H. unfold queryOutcome.
  destruct (reports_query _ _); [destruct (formatReport _ _)|]; discriminate.
Qed.

(** X5: a fulfilled query whose report has a row longer than the list of
    column headers ends like a failed query: the [TypeError] of the
    formatter is caught, one dialog shows it, and nothing is inserted. *)
Theorem fetchReportDetails_malformed_report_reported
    (editor : Editor) (options : VideoReportOptions) (w : World)
    (metricsData : AnalyticsReport number) :
  reports_query (googleAuth w) (reportQuery options) = Fulfilled metricsData ->
  Exists (fun row => (List.length (columnHeaders metricsData) < List.length row)%nat)
    (rows metricsData) ->
  trace (fetch editor options w) =
    (trace w ++
     [ReportsQuery (reportQuery options);
      ModalOpen (ErrorModal
        "Retrieval failed: TypeError: Cannot read properties of undefined (reading 'name')")])%list /\
  plugin (fetch editor options w) = plugin w.
Proof.
  intros Hquery Hlong.
  destruct (fetchReportDetails_trace editor options w) as (Htrace & Hplugin & _).
  split; [|exact Hplugin].
  rewrite Htrace, Hquery. unfold queryOutcome, formatReport.
  rewrite formatRows_beyond by assumption. reflexivity.
Qed.

(** ** The click on the ribbon icon *)

(** X6: a click without an active Markdown view does nothing at all; with
    a view but no key location, or a key location that does not exist, it
    opens the one dialog that says so (the missing location is reported
    first).  In none of these cases is a field of the plugin changed or a
    collaborator called. *)
Theorem onRibbonClick_blocked (activeView : option Editor) (form : FormSession) (w : World) :
  activeView = None \/
  oauth2KeysLocation (settings (plugin w)) = EmptyString \/
  existsSync (path_normalize (oauth2KeysLocation (settings (plugin w)))) = false ->
  trace (click activeView form w) =
    (trace w ++
     match activeView with
     | None => []
     | Some _ =>
         if oauth2KeysLocation (settings (plugin w)) =? EmptyString
         then [ModalOpen OAuth2MisconfiguredErrorModal]
         else [ModalOpen (ErrorModal
                 ("Invalid Location: " ++
                  String "034"%char (oauth2KeysLocation (settings (plugin w)))))]
     end)%list /\
  plugin (click activeView form w) = plugin w /\
  googleAuth (click activeView form w) = googleAuth w.
Proof.
  intros Hblocked. unfold onRibbonClick, truthy.
  destruct activeView as [editor|]; [|rewrite app_nil_r; auto].
  destruct (String.eqb_spec (oauth2KeysLocation (settings (plugin w))) EmptyString)
    as [Hunset|Hset]; cbn [negb]; [auto|].
  destruct Hblocked as [Hview|[Hunset|Hmissing]]; [discriminate|congruence|].
  rewrite Hmissing. cbn [negb]. auto.
Qed.

(** X7: when the form is left without the submit button, what was typed is
    still in the cached options of the plugin, because the form writes into
    the plugin's own record; nothing else happens. *)
Theorem onRibbonClick_closed_keeps_typed
    (editor : Editor) (changes : list FieldChange) (w : World) :
  oauth2KeysLocation (settings (plugin w)) <> EmptyString ->
  existsSync (path_normalize (oauth2KeysLocation (settings (plugin w)))) = true ->
  previousReportOptions (plugin (click (Some editor) (formSession changes false) w)) =
    typeInto changes (previousReportOptions (plugin w)) /\
  trace (click (Some editor) (formSession changes false) w) = trace w /\
  oauth2Client (plugin (click (Some editor) (formSession changes false) w)) =
    oauth2Client (plugin w) /\
  settings (plugin (click (Some editor) (formSession changes false) w)) =
    settings (plugin w).
Proof.
  intros Hset Hexists. unfold onRibbonClick, truthy.
  destruct (String.eqb_spec (oauth2KeysLocation (settings (plugin w))) EmptyString)
    as [Hunset|_]; [congruence|].
  cbn [negb]. rewrite Hexists. cbn [negb formSession submitted edit]. auto.
Qed.

(** X8: the whole path from the click to the editor.  With an active view,
    an existing key location, submitted options that are valid, a cached
    credential the freshness check accepts and a fulfilled query with a
    well-shaped report, the options typed become the cached ones, the query
    is made once with them, and the lines of the report, trimmed, are
    inserted once in the editor of the view. *)
Theorem onRibbonClick_report_inserted
    (editor : Editor) (changes : list FieldChange) (w : World)
    (metricsData : AnalyticsReport number) :
  oauth2KeysLocation (settings (plugin w)) <> EmptyString ->
  existsSync (path_normalize (oauth2KeysLocation (settings (plugin w)))) = true ->
  valid (validateOptions moment_isValid
           (typeInto changes (previousReportOptions (plugin w)))) = true ->
  shouldAuthenticate (oauth2Client (plugin w)) (clock w) = false ->
  reports_query (googleAuth w)
    (reportQuery (typeInto changes (previousReportOptions (plugin w)))) =
    Fulfilled metricsData ->
  wellShaped metricsData ->
  trace (click (Some editor) (formSession changes true) w) =
    (trace w ++
     [ReportsQuery (reportQuery (typeInto changes (previousReportOptions (plugin w))));
      ReplaceRange editor
        (trim (emittedLines Number_toString (reportCells metricsData)))])%list /\
  previousReportOptions (plugin (click (Some editor) (formSession changes true) w)) =
    typeInto changes (previousReportOptions (plugin w)) /\
  oauth2Client (plugin (click (Some editor) (formSession changes true) w)) =
    oauth2Client (plugin w).
Proof.
  intros Hset Hexists Hvalid Hfresh Hquery Hshape.
  rewrite (onRibbonClick_submitted Number_toString moment_isValid authenticate
             reports_query existsSync path_normalize editor (formSession changes true) w
             Hset Hexists eq_refl).
  cbn [formSession edit]. unfold onSubmit. rewrite Hvalid. cbn [negb].
  set (result := typeInto changes (previousReportOptions (plugin w))) in *.
  set (w1 := set_previousReportOptions result (set_previousReportOptions result w)).
  assert (Hprev : previousReportOptions (plugin w1) = result) by reflexivity.
  assert (Hcred : oauth2Client (plugin w1) = oauth2Client (plugin w)) by reflexivity.
  assert (Hclock : clock w1 = clock w) by reflexivity.
  assert (Hgoogle : googleAuth w1 = googleAuth w) by reflexivity.
  assert (Hbefore : trace w1 = trace w) by reflexivity.
  rewrite Hprev, runVideoReport_cases, Hcred, Hclock, Hfresh.
  destruct (fetchReportDetails_trace editor result w1) as (Htrace & Hplugin & _).
  rewrite Htrace, Hplugin, Hgoogle, Hbefore, Hprev, Hcred, Hquery.
  unfold queryOutcome.
  rewrite (proj1 (formatReport_wellShaped Number_toString metricsData Hshape)). auto.
Qed.

End OrchestratorPaths.

(** ** What is typed into the form *)

(** The values typed into one field, in order. *)
Definition typedInto (field : FieldChange -> option string) (changes : list FieldChange) :
    list string :=
  flat_map (fun change => match field change with Some v => [v] | None => [] end) changes.

Definition startDateTyped (change : FieldChange) : option string :=
  match change with StartDateChange v => Some v | _ => None end.
Definition endDateTyped (change : FieldChange) : option string :=
  match change with EndDateChange v => Some v | _ => None end.
Definition metricsTyped (change : FieldChange) : option string :=
  match change with MetricsChange v => Some v | _ => None end.
Definition videoIdTyped (change : FieldChange) : option string :=
  match change with VideoIdChange v => Some v | _ => None end.

(** X9: after any sequence of changes each field of the options holds the
    last value typed into that field, or the value the form was opened with
    when nothing was typed into it; what is typed into one field never
    reaches another. *)
Theorem typeInto_last_typed (changes : list FieldChange) (opened : VideoReportOptions) :
  startDate (typeInto changes opened) =
    last (typedInto startDateTyped changes) (startDate opened) /\
  endDate (typeInto changes opened) =
    last (typedInto endDateTyped changes) (endDate opened) /\
  metrics (typeInto changes opened) =
    last (typedInto metricsTyped changes) (metrics opened) /\
  videoId (typeInto changes opened) =
    last (typedInto videoIdTyped changes) (videoId opened).
Proof.
  unfold typeInto, typedInto.
  induction changes as [|change changes IH] using rev_ind; [cbn; auto|].
  rewrite fold_left_app, !flat_map_app. cbn [fold_left flat_map].
  destruct IH as (Hstart & Hend & Hmetrics & Hvideo).
  destruct change; cbn [onChange startDate endDate metrics videoId
                         startDateTyped endDateTyped metricsTyped videoIdTyped app];
    rewrite ?app_nil_r, ?last_last; auto.
Qed.

(** ** The formatter on every report *)

Lemma forallb_false_Exists {A : Type} (f : A -> bool) (l : list A) :
  forallb f l = false -> Exists (fun x => f x = false) l.
Proof.
  induction l as [|x l IH]; cbn [forallb]; [discriminate|].
  destruct (f x) eqn:Hx; cbn [andb]; intros H.
  - apply Exists_cons_tl, IH, H.
  - apply Exists_cons_hd, Hx.
Qed.

Lemma map_snd_combine {A B : Type} (xs : list A) (ys : list B) :
  (List.length ys <= List.length xs)%nat -> map snd (combine xs ys) = ys.
Proof.
  revert xs. induction ys as [|y ys IH]; intros [|x xs] Hlen; cbn in *;
    try reflexivity; [lia|].
  f_equal. apply IH. lia.
Qed.

(** The text never starts with white space once the start is trimmed, and
    trimming the end keeps that. *)
Lemma trimStart_noLeading (s : string) : noLeadingSpace (trimStart s) = true.
Proof.
  induction s as [|c s IH]; cbn [trimStart]; [reflexivity|].
  destruct (isWhiteSpace c) eqn:Hc; [exact IH|].
  cbn [noLeadingSpace]. now rewrite Hc.
Qed.

Lemma trimEnd_noLeading (s : string) :
  noLeadingSpace s = true -> noLeadingSpace (trimEnd s) = true.
Proof.
  destruct s as [|c s]; cbn [trimEnd noLeadingSpace]; [reflexivity|].
  intros Hc. destruct (trimEnd s); [|exact Hc].
  destruct (isWhiteSpace c) eqn:Hw; [discriminate|].
  cbn [noLeadingSpace]. now rewrite Hw.
Qed.

(** The last character of a text trimmed at its end is not white space. *)
Lemma trimEnd_last (u s : string) (c : ascii) :
  trimEnd u = s ++ String c EmptyString -> isWhiteSpace c = false.
Proof.
  revert s. induction u as [|a u IH]; intros s; cbn [trimEnd].
  - destruct s; discriminate.
  - destruct (trimEnd u) as [|d t] eqn:Hu.
    + destruct (isWhiteSpace a) eqn:Ha; [destruct s; discriminate|].
      destruct s as [|b s]; cbn [append]; [intros [= <-]; exact Ha|].
      intros [= _ H]. destruct s; discriminate H.
    + destruct s as [|b s]; cbn [append]; [discriminate|].
      intros [= _ H]. apply (IH s). exact H.
Qed.

Section FormatterOnEveryReport.

Context {number : Type}.
Variable Number_toString : number -> string.

(** No row is longer than the list of column headers. *)
Definition fitsHeaders (data : AnalyticsReport number) : bool :=
  forallb (fun row => (List.length row <=? List.length (columnHeaders data))%nat)
    (rows data).

(** X10: [formatReport] on every report.  It returns a text exactly when no
    row is longer than the list of column headers, and throws the
    [TypeError] otherwise.  A row shorter than the list is not an error:
    its cells go under the first headers, and no cell of any row is left
    out of the text. *)
Theorem formatReport_every_report (data : AnalyticsReport number) :
  formatReport Number_toString data =
    (if fitsHeaders data
     then Ok (trim (emittedLines Number_toString (reportCells data)))
     else Throw undefinedName) /\
  (fitsHeaders data = true -> map snd (reportCells data) = List.concat (rows data)).
Proof.
  unfold fitsHeaders, formatReport, reportCells. split.
  - destruct (forallb _ (rows data)) eqn:Hfits.
    + rewrite formatRows_within; [reflexivity|].
      apply Forall_forall. intros row Hrow.
      rewrite forallb_forall in Hfits. apply Nat.leb_le, Hfits, Hrow.
    + rewrite formatRows_beyond; [reflexivity|].
      apply forallb_false_Exists in Hfits.
      eapply Exists_impl; [|exact Hfits].
      intros row Hrow. apply Nat.leb_gt in Hrow. exact Hrow.
  - intros Hfits. rewrite forallb_forall in Hfits.
    induction (rows data) as [|row remaining IH]; [reflexivity|].
    cbn [flat_map List.concat]. rewrite map_app. f_equal.
    + apply map_snd_combine. rewrite length_map.
      apply Nat.leb_le, Hfits. now left.
    + apply IH. intros r Hr. apply Hfits. now right.
Qed.

(** X11: a text returned by [formatReport] never starts with white space
    and never ends with white space; in particular it does not end with a
    line break. *)
Theorem formatReport_text_trimmed (data : AnalyticsReport number) (text : string) :
  formatReport Number_toString data = Ok text ->
  noLeadingSpace text = true /\
  forall (before : string) (c : ascii),
    text = before ++ String c EmptyString -> isWhiteSpace c = false.
Proof.
  unfold formatReport.
  destruct (formatRows _ _ _ _) as [frontMattered|e]; [|discriminate].
  intros [= <-]. unfold trim. split.
  - apply trimEnd_noLeading, trimStart_noLeading.
  - intros before c H. now apply (trimEnd_last (trimStart frontMattered) before c).
Qed.

End FormatterOnEveryReport.

(** A report whose second row lacks its last cell. *)
Definition raggedReport : AnalyticsReport Z :=
  {| columnHeaders := [metricColumn "views"; metricColumn "likes"];
     rows := [[10; 2]; [20]] |}.

Lemma formatReport_every_report_witness :
  formatReport Integer_toString raggedReport =
    Ok ("views:: 10" ++ nl ++ "likes:: 2" ++ nl ++ "views:: 20") /\
  map snd (reportCells raggedReport) = [10; 2; 20].
Proof.
  split.
  - exact (proj1 (formatReport_every_report Integer_toString raggedReport)).
  - exact (proj2 (formatReport_every_report Integer_toString raggedReport) eq_refl).
Defined.

Lemma formatReport_text_trimmed_witness :
  noLeadingSpace ("views:: 10" ++ nl ++ "likes:: 2" ++ nl ++ "views:: 20") = true /\
  forall (before : string) (c : ascii),
    "views:: 10" ++ nl ++ "likes:: 2" ++ nl ++ "views:: 20" = before ++ String c EmptyString ->
    isWhiteSpace c = false.
Proof.
  exact (formatReport_text_trimmed Integer_toString raggedReport _ eq_refl).
Defined.

(** ** The validator and the two dates *)

(** The same options with the two dates exchanged. *)
Definition exchangeDates (options : VideoReportOptions) : VideoReportOptions :=
  {| endDate := startDate options; startDate := endDate options;
     metrics := metrics options; videoId := videoId options |}.

(** X12: the validator looks at each date on its own and never at the two
    together: exchanging the start date and the end date does not change
    whether the options are valid, so a range that ends before it starts is
    accepted like the range in the right order. *)
Theorem validateOptions_exchanged_dates
    (moment_isValid : string -> bool) (options : VideoReportOptions) :
  valid (validateOptions moment_isValid (exchangeDates options)) =
  valid (validateOptions moment_isValid options).
Proof.
  unfold validateOptions, exchangeDates, truthy.
  cbn [startDate endDate metrics videoId].
  destruct (moment_isValid (startDate options)),
           (moment_isValid (endDate options)),
           (metrics options) as [|? ?],
           (videoId options) as [|? ?]; reflexivity.
Qed.

(** ** Settings *)

(** X13: what [saveSettings] writes is what [loadSettings] reads: a plugin
    started again on the data file gets the settings that were saved,
    whatever its own fields were, and loading touches no other field. *)
Theorem loadSettings_saveSettings (h : Host) (restarted : Plugin) :
  settings (hostPlugin (loadSettings
              {| hostPlugin := restarted; dataFile := dataFile (saveSettings h) |})) =
    settings (hostPlugin h) /\
  oauth2Client (hostPlugin (loadSettings
                  {| hostPlugin := restarted; dataFile := dataFile (saveSettings h) |})) =
    oauth2Client restarted /\
  previousReportOptions (hostPlugin (loadSettings
                           {| hostPlugin := restarted;
                              dataFile := dataFile (saveSettings h) |})) =
    previousReportOptions restarted.
Proof.
  destruct h as [[[mine location] cached previous] data]. cbn. auto.
Qed.

Lemma length_positive_nonempty (value : string) :
  (0 <? String.length value)%nat = negb (value =? EmptyString).
Proof. destruct value; reflexivity. Qed.

Section SettingsTabProperties.

Variable path_normalize : string -> string.

Lemma onKeysLocationChange_cases (value : string) (h : Host) :
  onKeysLocationChange path_normalize value h =
    if value =? EmptyString then h
    else saveSettings
           {| hostPlugin :=
                set_settings
                  {| mySetting := mySetting (settings (hostPlugin h));
                     oauth2KeysLocation := path_normalize value |}
                  (hostPlugin h);
              dataFile := dataFile h |}.
Proof.
  unfold onKeysLocationChange. rewrite length_positive_nonempty.
  destruct (value =? EmptyString); reflexivity.
Qed.

(** The values typed into the text area of the settings tab, in order. *)
Definition typeLocations (values : list string) (h : Host) : Host :=
  fold_left (fun h' value => onKeysLocationChange path_normalize value h') values h.

(** The values that are not empty. *)
Definition nonEmptyValues (values : list string) : list string :=
  filter (fun value => negb (value =? EmptyString)) values.

(** X14: the settings tab after any sequence of values typed into it.  The
    key location is the normalized form of the last value that was not
    empty, and the data file then holds the settings; empty values are
    ignored, so when nothing else was typed the plugin and the data file
    are as before.  No other field changes.  Hence, when [path.normalize]
    gives no empty path for a non-empty one, a key location that is set can
    be replaced but never cleared from the tab. *)
Theorem typeLocations_last_nonempty (values : list string) (h : Host) :
  oauth2KeysLocation (settings (hostPlugin (typeLocations values h))) =
    last (map path_normalize (nonEmptyValues values))
         (oauth2KeysLocation (settings (hostPlugin h))) /\
  (nonEmptyValues values <> [] ->
   dataFile (typeLocations values h) = dataFile (saveSettings (typeLocations values h))) /\
  (nonEmptyValues values = [] -> typeLocations values h = h) /\
  mySetting (settings (hostPlugin (typeLocations values h))) =
    mySetting (settings (hostPlugin h)) /\
  oauth2Client (hostPlugin (typeLocations values h)) = oauth2Client (hostPlugin h) /\
  previousReportOptions (hostPlugin (typeLocations values h)) =
    previousReportOptions (hostPlugin h) /\
  ((forall value, value <> EmptyString -> path_normalize value <> EmptyString) ->
   oauth2KeysLocation (settings (hostPlugin h)) <> EmptyString ->
   oauth2KeysLocation (settings (hostPlugin (typeLocations values h))) <> EmptyString).
Proof.
  unfold typeLocations, nonEmptyValues.
  induction values as [|value values IH] using rev_ind.
  - cbn. repeat split; auto. congruence.
  - destruct IH as (Hlocation & Hsaved & Hidle & Hmine & Hclient & Hprevious & Hkept).
    rewrite fold_left_app, filter_app, map_app. cbn [fold_left filter].
    rewrite !onKeysLocationChange_cases.
    destruct (String.eqb_spec value EmptyString) as [->|Hvalue]; cbn [negb map].
    + rewrite !app_nil_r. repeat split; auto.
    + rewrite last_last. cbn. repeat split; auto.
      intros H. apply app_eq_nil in H as [_ H]. discriminate H.
Qed.

End SettingsTabProperties.

(** ** The first click after an installation *)

(** X15: a plugin whose settings were loaded when there was no data file,
    or a data file without the key location, answers a click in a Markdown
    view with the dialog that the key location is not defined, and with
    nothing else: the default key location is the empty string. *)
Theorem onRibbonClick_after_first_load
    {number : Type} (Number_toString : number -> string)
    (moment_isValid : string -> bool)
    (authenticate : LocalAuthOptions -> Outcome OAuth2Client)
    (reports_query : option OAuth2Client -> Reports.Query -> Outcome (AnalyticsReport number))
    (existsSync : string -> bool) (path_normalize : string -> string)
    (h : Host) (editor : Editor) (form : FormSession) (w : World) :
  dataFile h = None \/
  (exists object, dataFile h = Some object /\ persisted_oauth2KeysLocation object = None) ->
  plugin w = hostPlugin (loadSettings h) ->
  onRibbonClick Number_toString moment_isValid authenticate reports_query
    existsSync path_normalize (Some editor) form w =
  emit (ModalOpen OAuth2MisconfiguredErrorModal) w.
Proof.
  intros Hdata Hplugin.
  assert (Hlocation : oauth2KeysLocation (settings (plugin w)) = EmptyString).
  { rewrite Hplugin. unfold loadSettings. cbn [hostPlugin set_settings settings].
    destruct Hdata as [->|(object & -> & Hkey)]; cbn [Object_assign_settings];
      [reflexivity|].
    cbn [oauth2KeysLocation]. rewrite Hkey. reflexivity. }
  unfold onRibbonClick. rewrite Hlocation. reflexivity.
Qed.

(** ** Instances *)

(** A client as an authorization returns it, with its expiry one hour
    after the clock of [freshWorld]. *)
Definition grantedClient : OAuth2Client :=
  {| credentials := {| access_token := Some "ya29.token";
                       expiry_date := Some 1800003600000 |} |}.

Definition grantingAuthenticate (_ : LocalAuthOptions) : Outcome OAuth2Client :=
  Fulfilled grantedClient.

Definition answeringQuery (_ : option OAuth2Client) (_ : Reports.Query) :
    Outcome (AnalyticsReport Z) :=
  Fulfilled viewsAndLikes.

Definition malformedQuery (_ : option OAuth2Client) (_ : Reports.Query) :
    Outcome (AnalyticsReport Z) :=
  Fulfilled overlongReport.

(** The world of [freshWorld] once [grantedClient] is cached. *)
Definition signedInWorld : World :=
  {| plugin := {| settings := settings (plugin freshWorld);
                  oauth2Client := Some grantedClient;
                  previousReportOptions := previousReportOptions (plugin freshWorld) |};
     googleAuth := Some grantedClient;
     clock := 1800000000500;
     trace := [] |}.

Definition viewsAndLikesText : string :=
  "views:: 10" ++ nl ++ "likes:: 2" ++ nl ++ "views:: 20" ++ nl ++ "likes:: 4".

Definition typedOptions : list FieldChange :=
  [StartDateChange "2024-01-01"; VideoIdChange "dQw4"; VideoIdChange "dQw4w9WgXcQ";
   MetricsChange "views,likes"].

Lemma runVideoReport_cached_credential_inserts_witness :
  trace (runVideoReport Integer_toString rejectingAuthenticate answeringQuery
           (EditorOf 0) sampleOptions signedInWorld) =
    [ReportsQuery (reportQuery sampleOptions); ReplaceRange (EditorOf 0) viewsAndLikesText] /\
  plugin (runVideoReport Integer_toString rejectingAuthenticate answeringQuery
            (EditorOf 0) sampleOptions signedInWorld) = plugin signedInWorld /\
  googleAuth (runVideoReport Integer_toString rejectingAuthenticate answeringQuery
                (EditorOf 0) sampleOptions signedInWorld) = googleAuth signedInWorld.
Proof.
  exact (runVideoReport_cached_credential_inserts Integer_toString rejectingAuthenticate
           answeringQuery (EditorOf 0) sampleOptions signedInWorld
           viewsAndLikes viewsAndLikesText eq_refl eq_refl eq_refl).
Defined.

Lemma runVideoReport_authorization_then_query_witness :
  trace (runVideoReport Integer_toString grantingAuthenticate answeringQuery
           (EditorOf 0) sampleOptions freshWorld) =
    [Authenticate (authOptions freshWorld); GoogleOptions grantedClient;
     ReportsQuery (reportQuery sampleOptions); ReplaceRange (EditorOf 0) viewsAndLikesText] /\
  oauth2Client (plugin (runVideoReport Integer_toString grantingAuthenticate answeringQuery
                          (EditorOf 0) sampleOptions freshWorld)) = Some grantedClient /\
  googleAuth (runVideoReport Integer_toString grantingAuthenticate answeringQuery
                (EditorOf 0) sampleOptions freshWorld) = Some grantedClient /\
  settings (plugin (runVideoReport Integer_toString grantingAuthenticate answeringQuery
                      (EditorOf 0) sampleOptions freshWorld)) = settings (plugin freshWorld) /\
  previousReportOptions
    (plugin (runVideoReport Integer_toString grantingAuthenticate answeringQuery
               (EditorOf 0) sampleOptions freshWorld)) =
    previousReportOptions (plugin freshWorld).
Proof.
  exact (runVideoReport_authorization_then_query Integer_toString grantingAuthenticate
           answeringQuery (EditorOf 0) sampleOptions freshWorld grantedClient
           eq_refl eq_refl).
Defined.

Lemma runVideoReport_credential_reused_witness :
  runVideoReport Integer_toString grantingAuthenticate answeringQuery
    (EditorOf 1) sampleOptions signedInWorld =
  fetchReportDetails Integer_toString answeringQuery (EditorOf 1) sampleOptions signedInWorld /\
  forall options'',
    ~ In (Authenticate options'')
        (skipn (List.length (trace signedInWorld))
           (trace (runVideoReport Integer_toString grantingAuthenticate answeringQuery
                     (EditorOf 1) sampleOptions signedInWorld))).
Proof.
  apply (runVideoReport_credential_reused Integer_toString grantingAuthenticate
           answeringQuery (EditorOf 0) sampleOptions freshWorld grantedClient
           1800003600000 (EditorOf 1) sampleOptions signedInWorld);
    [reflexivity|reflexivity|reflexivity|lia|reflexivity].
Defined.

Lemma fetchReportDetails_malformed_report_reported_witness :
  trace (fetchReportDetails Integer_toString malformedQuery
           (EditorOf 0) sampleOptions signedInWorld) =
    [ReportsQuery (reportQuery sampleOptions);
     ModalOpen (ErrorModal
       "Retrieval failed: TypeError: Cannot read properties of undefined (reading 'name')")] /\
  plugin (fetchReportDetails Integer_toString malformedQuery
            (EditorOf 0) sampleOptions signedInWorld) = plugin signedInWorld.
Proof.
  apply (fetchReportDetails_malformed_report_reported Integer_toString malformedQuery
           (EditorOf 0) sampleOptions signedInWorld overlongReport eq_refl).
  apply Exists_cons_hd. exact (le_n 2).
Defined.

Lemma onRibbonClick_blocked_witness :
  trace (onRibbonClick Integer_toString (fun _ => true) grantingAuthenticate answeringQuery
           (fun _ => false) (fun path => path)
           (Some (EditorOf 0)) (formSession typedOptions true) freshWorld) =
    [ModalOpen (ErrorModal
       ("Invalid Location: " ++ String "034"%char "/home/me/oauth2.keys.json"))] /\
  plugin (onRibbonClick Integer_toString (fun _ => true) grantingAuthenticate answeringQuery
            (fun _ => false) (fun path => path)
            (Some (EditorOf 0)) (formSession typedOptions true) freshWorld) =
    plugin freshWorld /\
  googleAuth (onRibbonClick Integer_toString (fun _ => true) grantingAuthenticate
                answeringQuery (fun _ => false) (fun path => path)
                (Some (EditorOf 0)) (formSession typedOptions true) freshWorld) =
    googleAuth freshWorld.
Proof.
  apply (onRibbonClick_blocked Integer_toString (fun _ => true) grantingAuthenticate
           answeringQuery (fun _ => false) (fun path => path)
           (Some (EditorOf 0)) (formSession typedOptions true) freshWorld).
  right. right. reflexivity.
Defined.

Lemma onRibbonClick_closed_keeps_typed_witness :
  previousReportOptions
    (plugin (onRibbonClick Integer_toString (fun _ => true) grantingAuthenticate
               answeringQuery (fun _ => true) (fun path => path)
               (Some (EditorOf 0)) (formSession typedOptions false) freshWorld)) =
    {| endDate := "2024-01-31"; startDate := "2024-01-01";
       metrics := "views,likes"; videoId := "dQw4w9WgXcQ" |} /\
  trace (onRibbonClick Integer_toString (fun _ => true) grantingAuthenticate
           answeringQuery (fun _ => true) (fun path => path)
           (Some (EditorOf 0)) (formSession typedOptions false) freshWorld) = [] /\
  oauth2Client
    (plugin (onRibbonClick Integer_toString (fun _ => true) grantingAuthenticate
               answeringQuery (fun _ => true) (fun path => path)
               (Some (EditorOf 0)) (formSession typedOptions false) freshWorld)) = None /\
  settings
    (plugin (onRibbonClick Integer_toString (fun _ => true) grantingAuthenticate
               answeringQuery (fun _ => true) (fun path => path)
               (Some (EditorOf 0)) (formSession typedOptions false) freshWorld)) =
    settings (plugin freshWorld).
Proof.
  apply (onRibbonClick_closed_keeps_typed Integer_toString (fun _ => true)
           grantingAuthenticate answeringQuery (fun _ => true) (fun path => path)
           (EditorOf 0) typedOptions freshWorld).
  - discriminate.
  - reflexivity.
Defined.

Lemma onRibbonClick_report_inserted_witness :
  trace (onRibbonClick Integer_toString (fun _ => true) rejectingAuthenticate
           answeringQuery (fun _ => true) (fun path => path)
           (Some (EditorOf 0)) (formSession typedOptions true) signedInWorld) =
    [ReportsQuery (reportQuery sampleOptions); ReplaceRange (EditorOf 0) viewsAndLikesText] /\
  previousReportOptions
    (plugin (onRibbonClick Integer_toString (fun _ => true) rejectingAuthenticate
               answeringQuery (fun _ => true) (fun path => path)
               (Some (EditorOf 0)) (formSession typedOptions true) signedInWorld)) =
    sampleOptions /\
  oauth2Client
    (plugin (onRibbonClick Integer_toString (fun _ => true) rejectingAuthenticate
               answeringQuery (fun _ => true) (fun path => path)
               (Some (EditorOf 0)) (formSession typedOptions true) signedInWorld)) =
    Some grantedClient.
Proof.
  apply (onRibbonClick_report_inserted Integer_toString (fun _ => true)
           rejectingAuthenticate answeringQuery (fun _ => true) (fun path => path)
           (EditorOf 0) typedOptions signedInWorld viewsAndLikes).
  - discriminate.
  - reflexivity.
  - reflexivity.
  - reflexivity.
  - reflexivity.
  - repeat constructor.
Defined.

Lemma typeLocations_last_nonempty_witness :
  oauth2KeysLocation
    (settings (hostPlugin
       (typeLocations (fun path => path) ["/keys/a.json"; EmptyString]
          {| hostPlugin := plugin freshWorld; dataFile := None |}))) <> EmptyString.
Proof.
  apply (typeLocations_last_nonempty (fun path => path) ["/keys/a.json"; EmptyString]
           {| hostPlugin := plugin freshWorld; dataFile := None |}).
  - intros value Hvalue. exact Hvalue.
  - discriminate.
Defined.

Lemma onRibbonClick_after_first_load_witness :
  onRibbonClick Integer_toString (fun _ => true) grantingAuthenticate answeringQuery
    (fun _ => true) (fun path => path) (Some (EditorOf 0)) (formSession typedOptions true)
    {| plugin := hostPlugin (loadSettings
                   {| hostPlugin := plugin freshWorld; dataFile := None |});
       googleAuth := None; clock := 1800000000000; trace := [] |} =
  emit (ModalOpen OAuth2MisconfiguredErrorModal)
    {| plugin := hostPlugin (loadSettings
                   {| hostPlugin := plugin freshWorld; dataFile := None |});
       googleAuth := None; clock := 1800000000000; trace := [] |}.
Proof.
  apply (onRibbonClick_after_first_load Integer_toString (fun _ => true)
           grantingAuthenticate answeringQuery (fun _ => true) (fun path => path)
           {| hostPlugin := plugin freshWorld; dataFile := None |}).
  - left. reflexivity.
  - reflexivity.
Defined.
